(** * ms_cv: the assignment-3 notebooks

    A shallow embedding of the code cells of three notebooks

    - Style Transfer (PyTorch),
    - Network Visualization (TensorFlow),
    - Generative Adversarial Networks (TensorFlow),

    and the properties of their control flow, their assertions and their
    grading checks.  The deep-learning framework and the course package
    [cv] are interfaces (type classes): the notebooks only call them. *)

From Stdlib Require Import ZArith QArith Qminmax Qabs Lia Ascii String.
From stdpp Require Import base list strings gmap.

Local Open Scope string_scope.
Local Open Scope list_scope.
Local Open Scope Z_scope.
Local Open Scope nat_scope.

(** ** Python values shared by the notebooks *)

Module Py.

(** Exceptions.  [AssertionError] and [ValueError] are the two the notebook
    cells raise themselves; an exception that comes out of a library call
    (IndexError, AttributeError, FileNotFoundError, ...) is a
    [LibraryError] with the name of its class. *)
Inductive exn : Type :=
| AssertionError (msg : string)
| ValueError (msg : string)
| LibraryError (name : string).

Inductive result (A : Type) : Type :=
| Ok (a : A)
| Raise (e : exn).
Arguments Ok {A} a.
Arguments Raise {A} e.

#[export] Instance result_ret : MRet result := fun _ a => Ok a.
#[export] Instance result_bind : MBind result := fun _ _ f m =>
  match m with
  | Ok a => f a
  | Raise e => Raise e
  end.

(** [assert cond, msg] *)
Definition assert (cond : bool) (msg : string) : result unit :=
  if cond then Ok tt else Raise (AssertionError msg).

(** [l[i]] for a non-negative index *)
Definition getitem {A} (l : list A) (i : nat) : result A :=
  match l !! i with
  | Some x => Ok x
  | None => Raise (LibraryError "IndexError")
  end.

(** [for x in xs: acc.append(f(x))] *)
Fixpoint collect {A B} (f : A -> result B) (xs : list A) : result (list B) :=
  match xs with
  | [] => Ok []
  | x :: xs' => y ← f x; ys ← collect f xs'; Ok (y :: ys)
  end.

(** [for t in ts: body], threading the variables the body assigns *)
Fixpoint for_in {S} (ts : list nat) (body : nat -> S -> result S) (s : S)
  : result S :=
  match ts with
  | [] => Ok s
  | t :: ts' => s' ← body t s; for_in ts' body s'
  end.

(** [range(n)] *)
Definition range (n : nat) : list nat := seq 0 n.

(** The outcome of a library call: a value, or the name of the class of
    the exception it raised. *)
Definition outcome (A : Type) : Type := (string + A)%type.

Definition call {A} (r : outcome A) : result A :=
  match r with
  | inr a => Ok a
  | inl name => Raise (LibraryError name)
  end.

(** What a cell does that can be seen from outside: what it prints and
    shows, and the files it asks numpy to load. *)
Inductive event : Type :=
| Print (s : string)                    (* print(s) *)
| PrintNum (template : string) (v : Q)  (* print(template.format(v)), print(template % v) *)
| PrintInt (template : string) (n : Z)  (* the same for an int *)
| PrintInts (template : string) (ns : list Z) (* the same for several *)
| Figure                                (* plt.imshow(...); plt.show() *)
| Load (path : string).                 (* np.load(path) *)

(** A cell (or a function called from one): the events so far, and a value
    or the exception that stopped it. *)
Definition cell (A : Type) : Type := (list event * result A)%type.

#[export] Instance cell_ret : MRet cell := fun _ a => ([], Ok a).
#[export] Instance cell_bind : MBind cell := fun _ _ f m =>
  match m with
  | (es, Ok a) => let '(es', r) := f a in (es ++ es', r)
  | (es, Raise e) => (es, Raise e)
  end.

Definition run {A} (r : result A) : cell A := ([], r).
Definition emit (e : event) : cell unit := ([e], Ok tt).

(** A [str] as the regular expressions see it: its code points. *)
Definition str : Type := list N.

(** The [str] of an ASCII literal. *)
Definition codes (s : string) : str := N_of_ascii <$> list_ascii_of_string s.

(** What the call of a function of the student gives its caller: a tensor,
    or None, which is what a function returns whose body is still
    [pass]. *)
Inductive returned (T : Type) : Type :=
| Tensor (t : T)
| NoneObject.
Arguments Tensor {T} t.
Arguments NoneObject {T}.

(** [s.replace(old, new)] for a non-empty [old]: [skip] characters of a
    match are still to be dropped. *)
Fixpoint replace_from (old new : string) (skip : nat) (s : string) : string :=
  match s with
  | EmptyString => EmptyString
  | String c s' =>
      match skip with
      | S k => replace_from old new k s'
      | O =>
          if String.prefix old s
          then new +:+ replace_from old new (String.length old - 1) s'
          else String c (replace_from old new 0 s')
      end
  end.

Definition replace (old new s : string) : string := replace_from old new 0 s.

End Py.
Import Py.

(** ** Style Transfer (PyTorch notebook) *)

Module StyleTransfer.

(** A leaf tensor of the autograd graph: [t.data], [t.requires_grad],
    [t.grad]. *)
Record leaf (T : Type) : Type := Leaf {
  data : T;
  requires_grad : bool;
  grad : option T
}.
Arguments Leaf {T} data requires_grad grad.
Arguments data {T} l.
Arguments requires_grad {T} l.
Arguments grad {T} l.

(** The tensors the notebook mutates: the parameters of [cnn] (a global)
    and the generated image [img] (a local of [style_transfer]). *)
Inductive tref : Type :=
| Param (i : nat)
| Image.

#[export] Instance tref_eq_dec : EqDecision tref.
Proof. solve_decision. Defined.

Record store (T : Type) : Type := Store {
  cnn : list (leaf T);
  img : leaf T
}.
Arguments Store {T} cnn img.
Arguments cnn {T} s.
Arguments img {T} s.

(** The interface of torch, torchvision, PIL, numpy and
    [cv.style_transfer_pytorch] that the notebook calls.  The functions of
    the course package are the ones the student writes. *)
Class Torch : Type := {
  tensor : Type;
  (* torch *)
  clamp : Q -> Q -> tensor -> tensor;
  add : tensor -> tensor -> tensor;
  zeros_like : tensor -> tensor;
  uniform_ : Q -> Q -> tensor -> N -> tensor;
  (* the number that str.format renders for an array of one element; it
     raises for another object *)
  item : tensor -> outcome Q;
  (* autograd: the gradient at a point of a traced scalar function *)
  gradient : (tensor -> result tensor) -> tensor -> tensor;
  (* torch.optim.Adam: per-parameter state and update rule *)
  adam_state : Type;
  adam_fresh : adam_state;
  adam_update : Q -> adam_state -> tensor -> tensor -> tensor * adam_state;
  (* preprocess(PIL.Image.open(name), size=size).type(dtype) *)
  open_image : string -> nat -> outcome tensor;
  (* np.load(path) *)
  np_load : string -> outcome (gmap string tensor);
  (* cv.style_transfer_pytorch *)
  extract_features : tensor -> list tensor -> list tensor;
  features_from_img :
    string -> nat -> list tensor -> outcome (list tensor * tensor);
  content_loss : Q -> tensor -> tensor -> tensor;
  gram_matrix : tensor -> tensor;
  style_loss : list tensor -> list nat -> list tensor -> list Q -> tensor;
  tv_loss : tensor -> Q -> tensor;
  (* rel_error(x, y) on two arrays; it raises when their shapes do not go
     together *)
  rel_error : tensor -> tensor -> outcome tensor;
  (* inspect.getsourcelines(tv_loss)[0] *)
  tv_loss_source : list str
}.

(** [re.search(r"for \S* in", line)].  [\s] is the white space of a [str]
    pattern: the characters [str.isspace] accepts, that is the ASCII ones
    (tab to carriage return, the four separators 28 to 31, the blank) and
    U+0085, U+00A0, U+1680, U+2000 to U+200A, U+2028, U+2029, U+202F,
    U+205F and U+3000.  After "for " the star takes every character up to
    the next white space, and " in" has to follow there: a shorter run
    would be followed by a character that is not the blank of " in". *)
Definition is_space (c : N) : bool :=
  ((9 <=? c) && (c <=? 13) || (28 <=? c) && (c <=? 32)
   || (c =? 133) || (c =? 160) || (c =? 5760)
   || (8192 <=? c) && (c <=? 8202)
   || (c =? 8232) || (c =? 8233) || (c =? 8239) || (c =? 8287)
   || (c =? 12288))%N.

Fixpoint skip_nonspace (s : str) : str :=
  match s with
  | [] => []
  | c :: s' => if is_space c then s else skip_nonspace s'
  end.

(** [s.startswith(p)] *)
Fixpoint starts_with (p s : str) : bool :=
  match p, s with
  | [], _ => true
  | a :: p', b :: s' => (a =? b)%N && starts_with p' s'
  | _ :: _, [] => false
  end.

Definition match_here (s : str) : bool :=
  starts_with (codes "for ") s
  && starts_with (codes " in") (skip_nonspace (drop 4 s)).

Fixpoint search_for_in (s : str) : bool :=
  match_here s ||
  match s with
  | [] => false
  | _ :: s' => search_for_in s'
  end.

Section Notebook.
Context `{Torch}.

Definition weights (params : list (leaf tensor)) : list tensor :=
  data <$> params.

Definition read (s : store tensor) (r : tref) : option (leaf tensor) :=
  match r with
  | Param i => cnn s !! i
  | Image => Some (img s)
  end.

Definition write (s : store tensor) (r : tref) (l : leaf tensor)
  : store tensor :=
  match r with
  | Param i => Store (<[i := l]> (cnn s)) (img s)
  | Image => Store (cnn s) l
  end.

(** *** Setup cells *)

(** The cell that sets [CHECKS_PATH]: the value the user assigns to it is
    the argument. *)
Definition checks_cell (CHECKS_PATH : option string)
  : cell (string * gmap string tensor) :=
  path ← run (match CHECKS_PATH with
              | Some path => Ok path
              | None =>
                  Raise (AssertionError
                           "[!] Choose path to style-transfer-checks.npz")
              end);
  let STYLES_FOLDER := replace "style-transfer-checks.npz" "styles" path in
  _ ← emit (Load path);
  answers ← run (call (np_load path));
  mret (STYLES_FOLDER, answers).


(** *** The grading checks *)

(** The four functions the student hands in, as a check calls them: a call
    may raise, and it may return None.  ([style_transfer] below takes them
    as they work, from the interface.) *)
Record submission : Type := Submission {
  content_loss_fn : Q -> tensor -> tensor -> outcome (returned tensor);
  gram_matrix_fn : tensor -> outcome (returned tensor);
  style_loss_fn :
    list tensor -> list nat -> list (returned tensor) -> list Q ->
    outcome (returned tensor);
  tv_loss_fn : tensor -> Q -> outcome (returned tensor)
}.

(** [r.cpu().data.numpy()] on what the student's function returned: None
    has no [cpu]. *)
Definition numpy (r : returned tensor) : result tensor :=
  match r with
  | Tensor t => Ok t
  | NoneObject => Raise (LibraryError "AttributeError")
  end.

Definition content_loss_test (student : submission) (STYLES_FOLDER : string)
    (model : list (leaf tensor)) (correct : tensor) : cell unit :=
  let content_image := STYLES_FOLDER +:+ "/tubingen.jpg" in
  let image_size := 192 in
  let content_layer := 3 in
  let content_weight := 6 # 100 in
  '(c_feats, content_img_var) ←
    run (call (features_from_img content_image image_size (weights model)));
  let bad_img := zeros_like content_img_var in
  let feats := extract_features bad_img (weights model) in
  a ← run (getitem c_feats content_layer);
  b ← run (getitem feats content_layer);
  r ← run (call (content_loss_fn student content_weight a b));
  student_output ← run (numpy r);
  error ← run (call (rel_error correct student_output));
  shown ← run (call (item error));
  emit (PrintNum "Maximum error is {:.3f}" shown).

Definition gram_matrix_test (student : submission) (STYLES_FOLDER : string)
    (model : list (leaf tensor)) (correct : tensor) : cell unit :=
  let style_image := STYLES_FOLDER +:+ "/starry_night.jpg" in
  let style_size := 192 in
  '(feats, _) ←
    run (call (features_from_img style_image style_size (weights model)));
  f ← run (getitem feats 5);
  r ← run (call (gram_matrix_fn student f));
  student_output ← run (numpy r);
  error ← run (call (rel_error correct student_output));
  shown ← run (call (item error));
  emit (PrintNum "Maximum error is {:.3f}" shown).

Definition style_loss_test (student : submission) (STYLES_FOLDER : string)
    (model : list (leaf tensor)) (correct : tensor) : cell unit :=
  let content_image := STYLES_FOLDER +:+ "/tubingen.jpg" in
  let style_image := STYLES_FOLDER +:+ "/starry_night.jpg" in
  let image_size := 192 in
  let style_size := 192 in
  let style_layers := [1; 4; 6; 7] in
  let style_weights := [300000; 1000; 15; 3]%Q in
  '(c_feats, _) ←
    run (call (features_from_img content_image image_size (weights model)));
  '(feats, _) ←
    run (call (features_from_img style_image style_size (weights model)));
  style_targets ←
    run (collect (fun idx => f ← getitem feats idx;
                             call (gram_matrix_fn student f))
                 style_layers);
  r ← run (call (style_loss_fn student c_feats style_layers style_targets
                               style_weights));
  student_output ← run (numpy r);
  error ← run (call (rel_error correct student_output));
  shown ← run (call (item error));
  emit (PrintNum "Error is {:.3f}" shown).

Definition loop_warning : string :=
  "WARNING!!!! - Your implementation of tv_loss contains a loop! To receive full credit, your implementation should not have any loops".

Definition tv_loss_test (student : submission) (STYLES_FOLDER : string)
    (correct : tensor) : cell unit :=
  let content_image := STYLES_FOLDER +:+ "/tubingen.jpg" in
  let image_size := 192 in
  let tv_weight := 2 # 100 in
  content_img ← run (call (open_image content_image image_size));
  r ← run (call (tv_loss_fn student content_img tv_weight));
  student_output ← run (numpy r);
  error ← run (call (rel_error correct student_output));
  shown ← run (call (item error));
  _ ← emit (PrintNum "Error is {:.4f}" shown);
  let lines := tv_loss_source in
  let used_loop := existsb search_for_in lines in
  if used_loop then emit (Print loop_warning) else mret tt.

(** How a check [c] ends that got as far as the call of the student's
    function, [r] being what the call gave: with the exception of the
    function, with AttributeError on None, with the exception of
    [rel_error] or of the formatting, and otherwise, having printed the
    relative error and then [more], at its end, whatever the error is. *)
Definition graded (template : string) (correct : tensor)
    (r : outcome (returned tensor)) (more : list event) (c : cell unit)
  : Prop :=
  match r with
  | inl name => c = ([], Raise (LibraryError name))
  | inr NoneObject => c = ([], Raise (LibraryError "AttributeError"))
  | inr (Tensor out) =>
      match rel_error correct out with
      | inl name => c = ([], Raise (LibraryError name))
      | inr error =>
          match item error with
          | inl name => c = ([], Raise (LibraryError name))
          | inr shown => c = (PrintNum template shown :: more, Ok tt)
          end
      end
  end.

(** *** Optimisation *)

(** [torch.optim.Adam(params, lr=lr)] *)
Record optimizer : Type := Adam {
  lr : Q;
  param_groups : list (tref * adam_state)
}.

Definition new_Adam (params : list tref) (lr : Q) : optimizer :=
  Adam lr ((fun r => (r, adam_fresh)) <$> params).

(** [optimizer.zero_grad()] *)
Definition zero_grad (o : optimizer) (s : store tensor) : store tensor :=
  foldl (fun s '(r, _) =>
           match read s r with
           | Some l => write s r (Leaf (data l) (requires_grad l) None)
           | None => s
           end) s (param_groups o).

(** [optimizer.step()]: every parameter of the optimizer that has a
    gradient is updated, and so is its Adam state. *)
Fixpoint step_groups (rate : Q) (gs : list (tref * adam_state))
    (s : store tensor) : list (tref * adam_state) * store tensor :=
  match gs with
  | [] => ([], s)
  | (r, a) :: gs' =>
      let '(a', s') :=
        match read s r with
        | Some l =>
            match grad l with
            | Some g =>
                let '(d, a') := adam_update rate a g (data l) in
                (a', write s r (Leaf d (requires_grad l) (grad l)))
            | None => (a, s)
            end
        | None => (a, s)
        end in
      let '(gs'', s'') := step_groups rate gs' s' in
      ((r, a') :: gs'', s'')
  end.

Definition step (o : optimizer) (s : store tensor)
  : optimizer * store tensor :=
  let '(gs, s') := step_groups (lr o) (param_groups o) s in
  (Adam (lr o) gs, s').

(** Accumulation of a gradient into [t.grad], for a tensor that
    requires one. *)
Definition accumulate (l : leaf tensor) (g : tensor) : leaf tensor :=
  if requires_grad l then
    Leaf (data l) true
         (Some (match grad l with
                | Some g0 => add g0 g
                | None => g
                end))
  else l.

(** The arguments of [style_transfer]. *)
Record params : Type := Params {
  content_image : string;
  style_image : string;
  image_size : nat;
  style_size : nat;
  content_layer : nat;
  content_weight : Q;
  style_layers : list nat;
  style_weights : list Q;
  tv_weight : Q;
  init_random : bool
}.

Definition initial_lr : Q := 3.
Definition decayed_lr : Q := 1 # 10.
Definition decay_lr_at : nat := 180.

(** The variables the loop of [style_transfer] assigns, and what it has
    printed and shown. *)
Record loop_state : Type := LoopState {
  mem : store tensor;
  opt : optimizer;
  out : list event
}.

Section Loop.
Variable p : params.
Variable content_target : tensor.
Variable style_targets : list tensor.

(** Lines "feats = extract_features(img, cnn)" to
    "loss = c_loss + s_loss + t_loss", as a function of the weights of
    [cnn] and of the pixels of [img]. *)
Definition loss_of (w : list tensor) (x : tensor) : result tensor :=
  let feats := extract_features x w in
  f ← getitem feats (content_layer p);
  let c_loss := content_loss (content_weight p) f content_target in
  let s_loss :=
    style_loss feats (style_layers p) style_targets (style_weights p) in
  let t_loss := tv_loss x (tv_weight p) in
  Ok (add (add c_loss s_loss) t_loss).

(** [loss.backward()]: every leaf that requires a gradient gets the
    gradient of the loss with respect to itself. *)
Definition backward (s : store tensor) : store tensor :=
  let w := weights (cnn s) in
  let x := data (img s) in
  Store
    (imap (fun i l =>
             accumulate l
               (gradient (fun v => loss_of (<[i := v]> w) x) (data l)))
          (cnn s))
    (accumulate (img s) (gradient (loss_of w) x)).

(** [img.data.clamp_(-1.5, 1.5)] *)
Definition clamp_img (s : store tensor) : store tensor :=
  write s Image (Leaf (clamp (-3 # 2) (3 # 2) (data (img s)))
                      (requires_grad (img s)) (grad (img s))).

(** The body of "for t in range(200)". *)
Definition iteration (t : nat) (st : loop_state) : result loop_state :=
  let s := mem st in
  let s := if t <? 190 then clamp_img s else s in
  let s := zero_grad (opt st) s in
  _ ← loss_of (weights (cnn s)) (data (img s));
  let s := backward s in
  let o :=
    if t =? decay_lr_at then new_Adam [Image] decayed_lr else opt st in
  let '(o, s) := step o s in
  let printed :=
    if t mod 100 =? 0
    then out st ++ [PrintInt "Iteration {}" (Z.of_nat t); Figure]
    else out st in
  Ok (LoopState s o printed).
End Loop.

(** A model none of whose parameters asks for a gradient. *)
Definition frozen (model : list (leaf tensor)) : Prop :=
  Forall (fun l => requires_grad l = false) model.

(** What holds at the start of iteration [n] of the loop, [model] being
    the parameters of [cnn] the loop was entered with. *)
Definition at_iteration (model : list (leaf tensor)) (n : nat)
    (st : loop_state) : Prop :=
  exists a x g0,
    opt st = Adam (if n <=? decay_lr_at then initial_lr else decayed_lr)
                  [(Image, a)]
    /\ img (mem st) = Leaf x true g0
    /\ weights (cnn (mem st)) = weights model
    /\ (frozen model -> cnn (mem st) = model).

(** Everything of [style_transfer] before its loop: the targets and the
    initial values of the loop variables. *)
Definition prepare (p : params) (seed : N) (model : list (leaf tensor))
  : result (tensor * list tensor * loop_state) :=
  content_img ← call (open_image (content_image p) (image_size p));
  content_target ←
    getitem (extract_features content_img (weights model)) (content_layer p);
  style_img ← call (open_image (style_image p) (style_size p));
  let feats := extract_features style_img (weights model) in
  style_targets ←
    collect (fun idx => f ← getitem feats idx; Ok (gram_matrix f))
            (style_layers p);
  let x :=
    if init_random p then uniform_ 0 1 content_img seed else content_img in
  let s := Store model (Leaf x true None) in
  let o := new_Adam [Image] initial_lr in
  Ok (content_target, style_targets, LoopState s o [Figure; Figure]).

(** The state after the first [n] iterations of the loop. *)
Definition iterations (p : params) (seed : N) (model : list (leaf tensor))
    (n : nat) : result loop_state :=
  '(content_target, style_targets, st0) ← prepare p seed model;
  for_in (range n) (iteration p content_target style_targets) st0.

Definition style_transfer (p : params) (seed : N) (model : list (leaf tensor))
  : result loop_state :=
  st ← iterations p seed model 200;
  Ok (LoopState (mem st) (opt st)
        (out st ++ [PrintInt "Iteration {}" 199; Figure])).

End Notebook.

End StyleTransfer.

(** ** Network Visualization (TensorFlow notebook) *)

Module NetVis.

(** An image: rows of pixels, a pixel being its channel values.  The
    notebook carries a leading batch axis of length one around it. *)
Definition pixel : Type := list Q.
Definition image : Type := list (list pixel).

(** A Keras model object: what its layers hold, and [model.trainable]. *)
Record model (W : Type) : Type := Model {
  variables : W;
  trainable : bool
}.
Arguments Model {W} variables trainable.
Arguments variables {W} m.
Arguments trainable {W} m.

(** numpy's global generator: a source of raw numbers and how many of
    them were drawn. *)
Record rng : Type := Rng {
  entropy : nat -> N;
  drawn : nat
}.

(** One draw of [np.random.randint(low, high)] *)
Definition draw (low high : Z) (g : rng) : Z * rng :=
  ((low + Z.of_N (entropy g (drawn g)) mod (high - low))%Z,
   Rng (entropy g) (S (drawn g))).

(** [np.random.randint(low, high, 2)] *)
Definition randint2 (low high : Z) (g : rng) : result (Z * Z * rng) :=
  if (low <? high)%Z then
    let '(a, g) := draw low high g in
    let '(b, g) := draw low high g in
    Ok (a, b, g)
  else Raise (LibraryError "ValueError").

(** [a % b] on ints: the remainder has the sign of [b]. *)
Definition pymod (a b : Z) : result Z :=
  if (b =? 0)%Z then Raise (LibraryError "ZeroDivisionError")
  else Ok (a mod b)%Z.

(** [d[key]] on a dict *)
Definition entry `{Countable K} {V} (d : gmap K V) (key : K) : result V :=
  match d !! key with
  | Some v => Ok v
  | None => Raise (LibraryError "KeyError")
  end.

(** [tf.concat([l[-k:], l[:-k]])] when [k] is not 0: the Python slices
    stop at the ends of the list. *)
Definition roll {A} (k : Z) (l : list A) : list A :=
  if (0 <? k)%Z then
    let n := length l - Z.to_nat k in
    drop n l ++ take n l
  else
    let n := Z.to_nat (- k) in
    drop n l ++ take n l.

(** Modelled from the spec: [jitter] of [cv/net_visualization_tensorflow.py],
    which is not among the sources: the image is shifted cyclically by [ox]
    columns and by [oy] rows. *)
Definition jitter (X : image) (ox oy : Z) : image :=
  let X := if (ox =? 0)%Z then X else map (roll ox) X in
  let X := if (oy =? 0)%Z then X else roll oy X in
  X.

(** [tf.clip_by_value(X, lo, hi)], the bounds being one number per
    channel. *)
Fixpoint clip_pixel (v lo hi : list Q) : pixel :=
  match v, lo, hi with
  | x :: v', a :: lo', b :: hi' => Qmin (Qmax x a) b :: clip_pixel v' lo' hi'
  | _, _, _ => []
  end.

Definition clip_by_value (X : image) (lo hi : list Q) : image :=
  map (map (fun v => clip_pixel v lo hi)) X.

(** After the clip no channel is above its upper bound, nor below its
    lower bound where the two bounds are in order. *)
Definition clipped (lo hi : list Q) (v : pixel) : Prop :=
  forall i x a b,
    v !! i = Some x -> lo !! i = Some a -> hi !! i = Some b ->
    (x <= b)%Q /\ ((a <= b)%Q -> (a <= x)%Q).

(** [tf.math.argmax] of a vector: the first position of its maximum. *)
Fixpoint argmax_from (best : nat) (top : Q) (i : nat) (l : list Q) : nat :=
  match l with
  | [] => best
  | x :: l' =>
      if Qle_bool x top
      then argmax_from best top (S i) l'
      else argmax_from i x (S i) l'
  end.

Definition argmax (l : list Q) : result nat :=
  match l with
  | [] => Raise (LibraryError "InvalidArgumentError")
  | x :: l' => Ok (argmax_from 0 x 1 l')
  end.

(** The interface of TensorFlow, os and the course package.  A function
    of the course package gets the model object and may change it: it
    returns the object as it leaves it.  The step of the visualization
    loop, which the student writes, may raise. *)
Class TF : Type := {
  weights : Type;
  (* cv.image_utils *)
  SQUEEZENET_MEAN : list Q;
  SQUEEZENET_STD : list Q;
  preprocess_image : image -> image;
  (* os.path.exists *)
  path_exists : string -> bool;
  (* SqueezeNet(), model.load_weights(path), model(X) *)
  SqueezeNet : weights;
  load_weights : weights -> string -> outcome weights;
  predict : weights -> image -> outcome (list (list Q));
  (* 255 * np.random.rand(224, 224, 3) *)
  random_image : rng -> image * rng;
  (* cv.net_visualization_tensorflow *)
  make_fooling_image : image -> nat -> model weights -> image * model weights;
  class_visualization_update_step :
    image -> model weights -> nat -> Q -> Q -> outcome (image * model weights);
  blur_image : image -> Q -> image
}.

(** The keyword arguments of [create_class_visualization]: [None] for one
    that is not passed; the four counts are ints of either sign. *)
Record kwargs : Type := Kwargs {
  l2_reg : option Q;
  learning_rate : option Q;
  num_iterations : option Z;
  blur_every : option Z;
  max_jitter : option Z;
  show_every : option Z
}.

(** [kwargs.pop(key, value)] *)
Definition pop {A} (arg : option A) (value : A) : A := default value arg.

Section Notebook.
Context `{TF}.

(** The cell that sets [SAVE_PATH] and loads the model: the value the user
    assigns to [SAVE_PATH] is the argument. *)
Definition model_cell (SAVE_PATH : option string) : result (model weights) :=
  path ← match SAVE_PATH with
         | Some path => Ok path
         | None => Raise (AssertionError "[!] Choose path to squeezenet.ckpt")
         end;
  _ ← (if negb (path_exists (path +:+ ".index"))
       then Raise (ValueError "You need to download SqueezeNet!")
       else Ok tt);
  let m := Model SqueezeNet true in
  w ← call (load_weights (variables m) path);
  let m := Model w (trainable m) in
  let m := Model (variables m) false in
  Ok m.

(** The cell that makes and checks the fooling image.  [X] holds the
    preprocessed example images. *)
Definition fooling_cell (X : list image) (m : model weights)
  : cell (model weights) :=
  let idx := 0 in
  Xi ← run (getitem X idx);
  let target_y := 6 in
  let '(X_fooling, m) := make_fooling_image Xi target_y m in
  scores ← run (call (predict (variables m) X_fooling));
  s ← run (getitem scores 0);
  a ← run (argmax s);
  _ ← run (assert (a =? target_y) "The network is not fooled!");
  _ ← emit Figure;
  mret m.

(** The bounds of the clip: [-SQUEEZENET_MEAN/SQUEEZENET_STD] and
    [(1.0 - SQUEEZENET_MEAN)/SQUEEZENET_STD]. *)
Definition clip_min : list Q :=
  zip_with (fun mean std => (- mean / std)%Q) SQUEEZENET_MEAN SQUEEZENET_STD.
Definition clip_max : list Q :=
  zip_with (fun mean std => ((1 - mean) / std)%Q)
           SQUEEZENET_MEAN SQUEEZENET_STD.

(** The variables the loop of [create_class_visualization] assigns
    ([X]), the objects it shares with the rest of the notebook (the
    generator and the model), and the figures it shows. *)
Record loop_state : Type := LoopState {
  X_ : image;
  gen : rng;
  net : model weights;
  shown : list event
}.

Section Loop.
(** The dict of class names that [load_imagenet_val] gave, a global of the
    notebook. *)
Variable class_names : gmap nat string.
(** By the docstring an "Integer in the range [0, 1000) giving the index
    of the class". *)
Variable target_y : nat.
Variable kw : kwargs.

Let l2 : Q := pop (l2_reg kw) (1 # 1000)%Q.
Let rate : Q := pop (learning_rate kw) 25%Q.
Let n_iter : Z := pop (num_iterations kw) 100%Z.
Let blur : Z := pop (blur_every kw) 10%Z.
Let jit : Z := pop (max_jitter kw) 16%Z.
Let show : Z := pop (show_every kw) 25%Z.

(** The body of "for t in range(num_iterations)".  The image is shown by
    the [plt.show()] that ends the branch, after [class_names[target_y]]. *)
Definition iteration (t : nat) (st : loop_state) : result loop_state :=
  '(ox, oy, g) ← randint2 0 jit (gen st);
  let X := jitter (X_ st) ox oy in
  '(X, m) ← call (class_visualization_update_step X (net st) target_y l2 rate);
  let X := jitter X (- ox) (- oy) in
  let X := clip_by_value X clip_min clip_max in
  r ← pymod (Z.of_nat t) blur;
  let X := if (r =? 0)%Z then blur_image X (1 # 2) else X in
  display ←
    (if t =? 0 then Ok true
     else r ← pymod (Z.of_nat t + 1) show;
          Ok ((r =? 0)%Z || (Z.of_nat t =? n_iter - 1)%Z));
  figures ←
    (if display : bool
     then class_name ← entry class_names target_y;
          Ok (shown st ++ [Figure])
     else Ok (shown st));
  Ok (LoopState X g m figures).

(** The state after the first [n] iterations. *)
Definition iterations (g : rng) (m : model weights) (n : nat)
  : result loop_state :=
  let '(X, g) := random_image g in
  let X := preprocess_image X in
  for_in (range n) iteration (LoopState X g m []).

(** [range(num_iterations)] is empty for a count below 1. *)
Definition create_class_visualization (g : rng) (m : model weights)
  : result loop_state :=
  iterations g m (Z.to_nat n_iter).
End Loop.

End Notebook.

(** *** The two functions of the course package

    [make_fooling_image] and [class_visualization_update_step] are in
    cv/net_visualization_tensorflow.py, which is not among the sources. *)

Section Course.
Context `{TF}.

(** [tape.gradient(scores[0, y], X)]: the gradient of the score of class
    [y] with respect to the image, the weights being constants. *)
Variable score_gradient : weights -> image -> nat -> image.






End Course.

End NetVis.

(** ** Generative Adversarial Networks (TensorFlow notebook) *)

Module Gan.

(** What [sample_noise] may hand back: an eager tensor, a variable or a
    numpy array, with its shape and its entries in row-major order. *)
Inductive kind : Type :=
| EagerTensor    (* tf.Tensor *)
| ResourceVar    (* tf.Variable *)
| Ndarray.       (* np.ndarray *)

#[export] Instance kind_eq_dec : EqDecision kind.
Proof. solve_decision. Defined.

Record array : Type := Array {
  kind_of : kind;
  shape : list nat;
  entries : list Q
}.

(** [z.get_shape().as_list()]: numpy arrays have no [get_shape]. *)
Definition get_shape (z : array) : result (list nat) :=
  match kind_of z with
  | Ndarray => Raise (LibraryError "AttributeError")
  | _ => Ok (shape z)
  end.

(** [isinstance(z, tf.Tensor)] *)
Definition is_Tensor (z : array) : bool := bool_decide (kind_of z = EagerTensor).

Fixpoint all_equal (xs ys : list Q) : bool :=
  match xs, ys with
  | [], [] => true
  | x :: xs', y :: ys' => Qeq_bool x y && all_equal xs' ys'
  | _, _ => false
  end.

(** [np.array_equal(a, b)] *)
Definition array_equal (a b : array) : bool :=
  bool_decide (shape a = shape b) && all_equal (entries a) (entries b).

(** [np.all(z >= lo) and np.all(z <= hi)] *)
Definition in_range (lo hi : Q) (z : array) : bool :=
  forallb (fun x => Qle_bool lo x) (entries z)
  && forallb (fun x => Qle_bool x hi) (entries z).

(** A [tf.keras] model of fully connected layers, by its layers. *)
Inductive layer : Type :=
| Dense (units : N) (use_bias : bool)
| LeakyReLU (alpha : Q)
| ReLU
| Tanh.

Record sequential : Type := Sequential {
  input_size : N;
  layers : list layer
}.

(** Modelled from the spec: [count_params] of [cv/gan_tf.py], which is not
    among the sources: the number of trainable parameters, a fully
    connected layer from [n] inputs to [m] units holding an [n] by [m]
    kernel and, with a bias, [m] more. *)
Fixpoint count_layers (n : N) (ls : list layer) : N :=
  match ls with
  | [] => 0
  | Dense m bias :: ls' =>
      (n * m + (if bias then m else 0) + count_layers m ls')%N
  | _ :: ls' => count_layers n ls'
  end.

Definition count_params (m : sequential) : N :=
  count_layers (input_size m) (layers m).

(** Modelled from the spec: [discriminator] of [cv/gan_tf.py], which is not
    among the sources, as the notebook prescribes it: 784 to 256, LeakyReLU
    0.01, 256, LeakyReLU 0.01, 1, every layer with a bias. *)
Definition prescribed_discriminator : sequential :=
  Sequential 784
    [Dense 256 true; LeakyReLU (1 # 100);
     Dense 256 true; LeakyReLU (1 # 100);
     Dense 1 true].

(** Modelled from the spec: [generator] of [cv/gan_tf.py], which is not
    among the sources, as the notebook prescribes it: noise to 1024, ReLU,
    1024, ReLU, 784, TanH, every layer with a bias. *)
Definition prescribed_generator (noise_dim : N) : sequential :=
  Sequential noise_dim
    [Dense 1024 true; ReLU; Dense 1024 true; ReLU; Dense 784 true; Tanh].

(** The interface of TensorFlow and [cv.gan_tf]. *)
Class TF : Type := {
  tensor : Type;
  constant : tensor -> tensor;               (* tf.constant *)
  (* the number that "%g" renders; it raises for what is not a number *)
  item : tensor -> outcome Q;
  random_state : Type;                       (* TensorFlow's generator *)
  (* cv.gan_tf: rel_error(x, y) on a reference and on what a function of
     the student returned; it raises when the two do not go together *)
  rel_error : tensor -> returned tensor -> outcome tensor;
  sample_noise : nat -> nat -> random_state -> array * random_state;
  discriminator : unit -> sequential;
  generator : N -> sequential;
  (* the functions under test, as the checks call them: a call may raise,
     and it may return None *)
  leaky_relu : tensor -> outcome (returned tensor);
  discriminator_loss : tensor -> tensor -> outcome (returned tensor);
  generator_loss : tensor -> outcome (returned tensor);
  ls_discriminator_loss : tensor -> tensor -> outcome (returned tensor);
  ls_generator_loss : tensor -> outcome (returned tensor)
}.

Section Notebook.
Context `{TF}.


Definition test_sample_noise (g : random_state) : cell unit :=
  let batch_size := 3 in
  let dim := 4 in
  let '(z, g) := sample_noise batch_size dim g in
  s ← run (get_shape z);
  _ ← run (assert (bool_decide (s = [batch_size; dim])) "");
  _ ← run (assert (is_Tensor z) "");
  let '(z1, g) := sample_noise batch_size dim g in
  let '(z2, g) := sample_noise batch_size dim g in
  _ ← run (assert (negb (array_equal z1 z2)) "");
  _ ← run (assert (in_range (-1) 1 z1) "");
  emit (Print "All tests passed!").

Definition test_discriminator (true_count : N)
    (discriminator : unit -> sequential) : cell unit :=
  let model := discriminator () in
  let cur_count := count_params model in
  if negb (cur_count =? true_count)%N
  then emit (PrintInts
               "Incorrect number of parameters in discriminator. {0} instead of {1}. Check your achitecture."
               [Z.of_N cur_count; Z.of_N true_count])
  else emit (Print "Correct number of parameters in discriminator.").

Definition test_generator (true_count : N)
    (generator : N -> sequential) : cell unit :=
  let model := generator 4%N in
  let cur_count := count_params model in
  if negb (cur_count =? true_count)%N
  then emit (PrintInts
               "Incorrect number of parameters in generator. {0} instead of {1}. Check your achitecture."
               [Z.of_N cur_count; Z.of_N true_count])
  else emit (Print "Correct number of parameters in generator.").



Definition test_lsgan_loss (score_real score_fake d_loss_true g_loss_true : tensor)
  : cell unit :=
  d_loss ←
    run (call (ls_discriminator_loss (constant score_real) (constant score_fake)));
  g_loss ← run (call (ls_generator_loss (constant score_fake)));
  d_error ← run (call (rel_error d_loss_true d_loss));
  shown ← run (call (item d_error));
  _ ← emit (PrintNum "Maximum error in d_loss: %g" shown);
  g_error ← run (call (rel_error g_loss_true g_loss));
  shown ← run (call (item g_error));
  emit (PrintNum "Maximum error in g_loss: %g" shown).

(** How a check [c] ends that prints one relative error, [r] being what
    the call of the student's function gave: with the exception of the
    function, with that of [rel_error] or of the formatting, and otherwise,
    having printed the relative error, at its end, whatever the error
    is. *)
Definition graded (template : string) (y_true : tensor)
    (r : outcome (returned tensor)) (c : cell unit) : Prop :=
  match r with
  | inl name => c = ([], Raise (LibraryError name))
  | inr y =>
      match rel_error y_true y with
      | inl name => c = ([], Raise (LibraryError name))
      | inr error =>
          match item error with
          | inl name => c = ([], Raise (LibraryError name))
          | inr shown => c = ([PrintNum template shown], Ok tt)
          end
      end
  end.

End Notebook.

End Gan.

(** ** Small executable instances of the interfaces

    One-number tensors and two-by-two images, on which the notebooks can be
    run inside Rocq. *)

Module Small.

(** Modelled from the spec: [rel_error] of [cv/style_transfer_pytorch.py]
    and [cv/gan_tf.py], which are not among the sources: the relative
    error |x - y| / max(1e-8, |x| + |y|) of an output against a
    reference, here for one number. *)
Definition rel_error (x y : Q) : Q :=
  Qred (Qabs (x - y) / Qmax (1 # 100000000) (Qabs x + Qabs y)).

(** The content loss of the notebook's formula, for one activation. *)
Definition content_loss (w a b : Q) : Q := Qred (w * ((a - b) * (a - b))).

(** A one-dimensional stand-in for autograd: a forward difference. *)
Definition slope (f : Q -> result Q) (x : Q) : Q :=
  match f (x + 1)%Q, f x with
  | Ok a, Ok b => Qred (a - b)
  | _, _ => 0%Q
  end.

(** PyTorch, with the function the student hands in for [content_loss] left
    open. *)
Definition torch (student_content_loss : Q -> Q -> Q -> Q)
  : StyleTransfer.Torch := {|
  StyleTransfer.tensor := Q;
  StyleTransfer.clamp lo hi x := Qred (Qmin (Qmax x lo) hi);
  StyleTransfer.add x y := Qred (x + y);
  StyleTransfer.zeros_like _ := 0%Q;
  StyleTransfer.uniform_ lo hi _ seed := ((lo + hi) / 2)%Q;
  StyleTransfer.item x := inr x;
  StyleTransfer.gradient := slope;
  StyleTransfer.adam_state := nat;
  StyleTransfer.adam_fresh := 0;
  StyleTransfer.adam_update rate a g x := (Qred (x - rate * g), S a);
  StyleTransfer.open_image name size :=
    if String.eqb name "" then inl "FileNotFoundError" else inr 1%Q;
  StyleTransfer.np_load path :=
    if String.eqb path "" then inl "FileNotFoundError"
    else inr {[ "cl_out" := (6 # 100)%Q ]};
  StyleTransfer.extract_features x w := replicate 8 (Qred (x + foldr Qplus 0%Q w));
  StyleTransfer.features_from_img name size w :=
    if String.eqb name "" then inl "FileNotFoundError"
    else inr (replicate 8 (Qred (1 + foldr Qplus 0%Q w)), 1%Q);
  StyleTransfer.content_loss := student_content_loss;
  StyleTransfer.gram_matrix f := Qred (f * f);
  StyleTransfer.style_loss feats layers targets ws := 0%Q;
  StyleTransfer.tv_loss x w := 0%Q;
  StyleTransfer.rel_error x y := inr (rel_error x y);
  StyleTransfer.tv_loss_source :=
    codes <$> ["def tv_loss(img, tv_weight):";
               "    for i in range(3):";
               "        pass"]
|}.

(** What a student hands in: functions that return a number, functions
    whose body is still [pass], and a [content_loss] that raises. *)
Definition handed_in (f : Q -> Q -> Q -> Q)
  : @StyleTransfer.submission (torch content_loss) :=
  @StyleTransfer.Submission (torch content_loss)
    (fun w a b => inr (Tensor (f w a b)))
    (fun g => inr (Tensor (Qred (g * g))))
    (fun feats layers targets ws => inr (Tensor 0%Q))
    (fun x w => inr (Tensor 0%Q)).



Definition params : @StyleTransfer.params :=
  StyleTransfer.Params "tubingen.jpg" "starry_night.jpg" 192 192 3 (6 # 100)
    [1; 4; 6; 7] [300000; 1000; 15; 3]%Q (2 # 100) false.

(** Two parameters for [cnn]. *)
Definition model : list (StyleTransfer.leaf Q) :=
  [StyleTransfer.Leaf 1%Q true None; StyleTransfer.Leaf 2%Q true None].

(** TensorFlow for the visualization notebook: seven classes, the last of
    which wins exactly when the first channel of the first pixel is
    positive. *)
Definition first_channel (X : NetVis.image) : Q :=
  match X with
  | ((x :: _) :: _) :: _ => x
  | _ => 0%Q
  end.

Definition tf : NetVis.TF := {|
  NetVis.weights := nat;
  NetVis.SQUEEZENET_MEAN := [485 # 1000; 456 # 1000; 406 # 1000];
  NetVis.SQUEEZENET_STD := [229 # 1000; 224 # 1000; 225 # 1000];
  NetVis.preprocess_image X := X;
  NetVis.path_exists p := String.eqb p "squeezenet.ckpt.index";
  NetVis.SqueezeNet := 0;
  NetVis.load_weights w path := inr 1;
  NetVis.predict w X := inr [[0; 0; 0; 0; 0; 0; first_channel X]%Q];
  NetVis.random_image g :=
    ([[[0; 0; 0]; [1; 1; 1]]; [[2; 2; 2]; [3; 3; 3]]]%Q, g);
  NetVis.make_fooling_image X target m := ([[[1; 0; 0]]]%Q, m);
  NetVis.class_visualization_update_step X m y l2 rate := inr (X, m);
  NetVis.blur_image X sigma := X
|}.

Definition no_kwargs : NetVis.kwargs :=
  NetVis.Kwargs None None None None None None.

Definition generator_0 : NetVis.rng := NetVis.Rng (fun i => N.of_nat (7 * i + 3)) 0.

(** Three of the thousand class names [load_imagenet_val] gives. *)
Definition class_names : gmap nat string :=
  {[ 6 := "stingray"; 76 := "tarantula"; 78 := "tick" ]}.

(** TensorFlow for the GAN notebook: the three-by-four noise is constant,
    its value moving with the state of the generator.  The generator loss
    the student hands in is left open. *)
Definition gan_of (student_generator_loss : Q -> outcome (returned Q))
  : Gan.TF := {|
  Gan.tensor := Q;
  Gan.constant x := x;
  Gan.item x := inr x;
  Gan.random_state := nat;
  Gan.rel_error x r :=
    match r with
    | Tensor y => inr (rel_error x y)
    | NoneObject => inl "TypeError"
    end;
  Gan.sample_noise b d g :=
    (Gan.Array Gan.EagerTensor [b; d]
       (replicate (b * d) (Z.of_nat (g mod 3) - 1 # 1)%Q), S g);
  Gan.discriminator _ := Gan.prescribed_discriminator;
  Gan.generator := Gan.prescribed_generator;
  Gan.leaky_relu x := inr (Tensor (Qmax x (x / 100)));
  Gan.discriminator_loss a b := inr (Tensor (a + b)%Q);
  Gan.generator_loss := student_generator_loss;
  Gan.ls_discriminator_loss a b :=
    inr (Tensor ((a - 1) * (a - 1) / 2 + b * b / 2)%Q);
  Gan.ls_generator_loss a := inr (Tensor ((a - 1) * (a - 1) / 2)%Q)
|}.

Definition gan : Gan.TF := gan_of (fun a => inr (Tensor a)).

End Small.

(** * The rest of the notebooks *)

(** ** Strings *)

Module Text.

(** [s.find(old)]: the position of the first occurrence of [old] in [s],
    [None] for Python's -1. *)
Fixpoint find (old s : string) : option nat :=
  if String.prefix old s then Some 0
  else match s with
       | EmptyString => None
       | String _ s' => S <$> find old s'
       end.

(** A run of characters without white space, what [\S*] matches. *)
Definition nonspace (s : str) : bool :=
  forallb (fun c => negb (StyleTransfer.is_space c)) s.

End Text.

(** ** Style Transfer (TensorFlow notebook) *)

Module StyleTransferTF.
Import NetVis.

(** [tf.clip_by_value(X, lo, hi)] with two numbers for bounds. *)
Definition clip_by_scalar (X : image) (lo hi : Q) : image :=
  map (map (map (fun x => Qmin (Qmax x lo) hi))) X.

(** Every channel of every pixel of [X] lies between [lo] and [hi]. *)
Definition within (lo hi : Q) (X : image) : Prop :=
  Forall (Forall (Forall (fun x => (lo <= x)%Q /\ (x <= hi)%Q))) X.

(** The value of a piecewise constant schedule at [step]: [v] up to the
    first boundary, the next value up to the next one, and the last value
    beyond the last boundary. *)
Fixpoint piece (boundaries : list Z) (v : Q) (values : list Q) (step : Z) : Q :=
  match boundaries, values with
  | b :: boundaries', v' :: values' =>
      if (step <=? b)%Z then v else piece boundaries' v' values' step
  | _, _ => v
  end.

(** [tf.keras.optimizers.schedules.PiecewiseConstantDecay(boundaries,
    values)(step)]: there has to be one value more than boundaries. *)
Definition PiecewiseConstantDecay (boundaries : list Z) (values : list Q)
    (step : Z) : result Q :=
  match values with
  | v :: values' =>
      if length values' =? length boundaries
      then Ok (piece boundaries v values' step)
      else Raise (LibraryError "ValueError")
  | [] => Raise (LibraryError "ValueError")
  end.

(** The interface of TensorFlow and [cv.style_transfer_tensorflow]. *)
Class TF : Type := {
  tensor : Type;
  weights : Type;
  add : tensor -> tensor -> tensor;
  (* preprocess_image(load_image(name, size=size)) *)
  open_image : string -> nat -> outcome image;
  (* initializer(shape=...) of tf.random_uniform_initializer(lo, hi) *)
  random_uniform : Q -> Q -> image -> N -> image;
  (* tape.gradient(loss, img_var) *)
  gradient : (image -> result tensor) -> image -> image;
  (* tf.keras.optimizers.Adam: the slots of a variable and the update *)
  adam_state : Type;
  adam_fresh : adam_state;
  adam_update : Q -> adam_state -> image -> image -> image * adam_state;
  (* cv.style_transfer_tensorflow *)
  extract_features : image -> weights -> list tensor;
  content_loss : Q -> tensor -> tensor -> tensor;
  gram_matrix : tensor -> tensor;
  style_loss : list tensor -> list nat -> list tensor -> list Q -> tensor;
  tv_loss : image -> Q -> tensor;
  (* rel_error(x, y) on a reference and on what a function of the student
     returned; it raises when the two do not go together *)
  rel_error : tensor -> returned tensor -> outcome tensor;
  (* the number that str.format renders; it raises for what is not a
     number *)
  item : tensor -> outcome Q;
  (* tf.zeros(X.shape) *)
  zeros : image -> image;
  (* inspect.getsourcelines(tv_loss)[0] *)
  tv_loss_source : list str
}.

(** What [int] makes of the piece of a version string at position [i]:
    [None] stands for a piece that [int] does not read. *)
Definition int_at (pieces : list (option Z)) (i : nat) : result Z :=
  match pieces !! i with
  | Some (Some n) => Ok n
  | Some None => Raise (LibraryError "ValueError")
  | None => Raise (LibraryError "IndexError")
  end.

(** [check_scipy()], on the pieces of [scipy.__version__.split('.')], of
    which there is at least one. *)
Definition check_scipy (first : option Z) (others : list (option Z))
  : result unit :=
  let version := first :: others in
  major ← int_at version 0;
  if (major <? 1)%Z then
    minor ← int_at version 1;
    assert (16 <=? minor)%Z
           "You must install SciPy >= 0.16.0 to complete this notebook."
  else Ok tt.

Section Notebook.
Context `{TF}.

(** The cell that sets [SAVE_PATH] and derives the other two paths from
    it. *)
Definition paths_cell (path_exists : string -> bool) (SAVE_PATH : option string)
  : result (string * string) :=
  path ← match SAVE_PATH with
         | Some path => Ok path
         | None => Raise (AssertionError "[!] Choose path to squeezenet.ckpt")
         end;
  _ ← (if negb (path_exists (path +:+ ".index"))
       then Raise (ValueError "You need to download SqueezeNet!")
       else Ok tt);
  let CHECKS_PATH :=
    replace "cv/datasets/squeezenet.ckpt" "style-transfer-checks-tf.npz" path in
  let STYLES_FOLDER := replace "style-transfer-checks-tf.npz" "styles" CHECKS_PATH in
  Ok (CHECKS_PATH, STYLES_FOLDER).

(** *** The grading checks

    They work on [content_img_test], [style_img_test] and [model], which
    the cell before them loaded. *)

(** The four functions the student hands in, as a check calls them: a call
    may raise, and it may return None.  ([style_transfer] below takes them
    as they work, from the interface.) *)
Record submission : Type := Submission {
  content_loss_fn : Q -> tensor -> tensor -> outcome (returned tensor);
  gram_matrix_fn : tensor -> outcome (returned tensor);
  style_loss_fn :
    list tensor -> list nat -> list (returned tensor) -> list Q ->
    outcome (returned tensor);
  tv_loss_fn : image -> Q -> outcome (returned tensor)
}.

Definition content_loss_test (student : submission) (content_img_test : image)
    (model : weights) (correct : tensor) : cell unit :=
  let content_layer := 2 in
  let content_weight := 6 # 100 in
  c_feats ←
    run (getitem (extract_features content_img_test model) content_layer);
  let bad_img := zeros content_img_test in
  feats ← run (getitem (extract_features bad_img model) content_layer);
  student_output ←
    run (call (content_loss_fn student content_weight c_feats feats));
  error ← run (call (rel_error correct student_output));
  shown ← run (call (item error));
  emit (PrintNum "Maximum error is {:.3f}" shown).

Definition gram_matrix_test (student : submission) (style_img_test : image)
    (model : weights) (correct : tensor) : cell unit :=
  f ← run (getitem (extract_features style_img_test model) 4);
  gram ← run (call (gram_matrix_fn student f));
  error ← run (call (rel_error correct gram));
  shown ← run (call (item error));
  emit (PrintNum "Maximum error is {:.3f}" shown).

Definition style_loss_test (student : submission)
    (content_img_test style_img_test : image) (model : weights)
    (correct : tensor) : cell unit :=
  let style_layers := [0; 3; 5; 6] in
  let style_weights := [300000; 1000; 15; 3]%Q in
  let c_feats := extract_features content_img_test model in
  let feats := extract_features style_img_test model in
  style_targets ←
    run (collect (fun idx => f ← getitem feats idx;
                             call (gram_matrix_fn student f))
                 style_layers);
  s_loss ← run (call (style_loss_fn student c_feats style_layers style_targets
                                    style_weights));
  error ← run (call (rel_error correct s_loss));
  shown ← run (call (item error));
  emit (PrintNum "Error is {:.3f}" shown).

Definition tv_loss_test (student : submission) (content_img_test : image)
    (correct : tensor) : cell unit :=
  let tv_weight := 2 # 100 in
  t_loss ← run (call (tv_loss_fn student content_img_test tv_weight));
  error ← run (call (rel_error correct t_loss));
  shown ← run (call (item error));
  _ ← emit (PrintNum "Error is {:.4f}" shown);
  let lines := tv_loss_source in
  let used_loop := existsb StyleTransfer.search_for_in lines in
  if used_loop then emit (Print StyleTransfer.loop_warning) else mret tt.

(** How a check [c] ends that got as far as the call of the student's
    function, [r] being what the call gave: with the exception of the
    function, with that of [rel_error] or of the formatting, and otherwise,
    having printed the relative error and then [more], at its end,
    whatever the error is. *)
Definition graded (template : string) (correct : tensor)
    (r : outcome (returned tensor)) (more : list event) (c : cell unit)
  : Prop :=
  match r with
  | inl name => c = ([], Raise (LibraryError name))
  | inr y =>
      match rel_error correct y with
      | inl name => c = ([], Raise (LibraryError name))
      | inr error =>
          match item error with
          | inl name => c = ([], Raise (LibraryError name))
          | inr shown => c = (PrintNum template shown :: more, Ok tt)
          end
      end
  end.

(** The variables the loop of [style_transfer] assigns: the image, the
    slots Adam keeps for it, and what was printed and shown. *)
Record loop_state : Type := LoopState {
  img_var : image;
  slots : adam_state;
  out : list event
}.

Section Loop.
Variable p : StyleTransfer.params.
Variable model : weights.
Variable content_target : tensor.
Variable style_targets : list tensor.
Variable learning_rate : Q.

(** The lines under the tape, as a function of the image. *)
Definition loss_of (x : image) : result tensor :=
  let feats := extract_features x model in
  f ← getitem feats (StyleTransfer.content_layer p);
  let c_loss := content_loss (StyleTransfer.content_weight p) f content_target in
  let s_loss :=
    style_loss feats (StyleTransfer.style_layers p) style_targets
               (StyleTransfer.style_weights p) in
  let t_loss := tv_loss x (StyleTransfer.tv_weight p) in
  Ok (add (add c_loss s_loss) t_loss).

(** The body of "for t in range(max_iter)". *)
Definition iteration (t : nat) (st : loop_state) : result loop_state :=
  _ ← loss_of (img_var st);
  let grad := gradient loss_of (img_var st) in
  let '(x, a) := adam_update learning_rate (slots st) grad (img_var st) in
  let x := clip_by_scalar x (-3 # 2) (3 # 2) in
  let printed :=
    if t mod 100 =? 0
    then out st ++ [PrintInt "Iteration {}" (Z.of_nat t); Figure]
    else out st in
  Ok (LoopState x a printed).
End Loop.

Definition initial_lr : Q := 3.
Definition decayed_lr : Q := 1 # 10.
Definition decay_lr_at : Z := 180.
Definition max_iter : nat := 200.

(** Everything of [style_transfer] before its loop. *)
Definition prepare (p : StyleTransfer.params) (seed : N) (model : weights)
  : result (tensor * list tensor * Q * loop_state) :=
  content_img ← call (open_image (StyleTransfer.content_image p)
                                 (StyleTransfer.image_size p));
  content_target ←
    getitem (extract_features content_img model) (StyleTransfer.content_layer p);
  style_img ← call (open_image (StyleTransfer.style_image p)
                               (StyleTransfer.style_size p));
  let s_feats := extract_features style_img model in
  style_targets ←
    collect (fun idx => f ← getitem s_feats idx; Ok (gram_matrix f))
            (StyleTransfer.style_layers p);
  let step := 0%Z in
  let boundaries := [decay_lr_at] in
  let values := [initial_lr; decayed_lr] in
  learning_rate ← PiecewiseConstantDecay boundaries values step;
  let '(x, line) :=
    if StyleTransfer.init_random p
    then (random_uniform 0 1 content_img seed, "Intializing randomly.")
    else (content_img, "Initializing with content image.") in
  Ok (content_target, style_targets, learning_rate,
      LoopState x adam_fresh [Figure; Figure; Print line]).

(** The state after the first [n] iterations of the loop. *)
Definition iterations (p : StyleTransfer.params) (seed : N) (model : weights)
    (n : nat) : result loop_state :=
  '(content_target, style_targets, learning_rate, st0) ← prepare p seed model;
  for_in (range n)
         (iteration p model content_target style_targets learning_rate) st0.

Definition style_transfer (p : StyleTransfer.params) (seed : N) (model : weights)
  : result loop_state :=
  st ← iterations p seed model max_iter;
  Ok (LoopState (img_var st) (slots st)
        (out st ++ [PrintInt "Iteration {}" 199; Figure])).

End Notebook.

End StyleTransferTF.

(** ** Showing images (GAN and visualization notebooks) *)

Module Plots.

(** [int(np.ceil(np.sqrt(n)))], for the sizes below 2^52 on which the square
    root of a float is exact enough. *)
Definition ceil_sqrt (n : nat) : nat :=
  let r := Nat.sqrt n in
  if r * r =? n then r else S r.

(** A batch of images as [show_images] gets it: [count] images of [size]
    numbers each, in row-major order. *)
Record batch : Type := Batch {
  count : nat;
  size : nat;
  numbers : list Q
}.

(** One turn of the loop of [show_images]: [gs[i]], then
    [img.reshape([sqrtimg, sqrtimg])]. *)
Definition show_one (sqrtn sqrtimg size i : nat) : result unit :=
  _ ← (if i <? sqrtn * sqrtn then Ok tt else Raise (LibraryError "IndexError"));
  if sqrtimg * sqrtimg =? size then Ok tt else Raise (LibraryError "ValueError").

(** [show_images(images)] for images of at least one number: the number of
    subplots it drew.  The first line, [np.reshape(images, [n, -1])], raises
    for an empty batch. *)
Definition show_images (images : batch) : result nat :=
  if count images =? 0 then Raise (LibraryError "ValueError")
  else
    let sqrtn := ceil_sqrt (count images) in
    let sqrtimg := ceil_sqrt (size images) in
    for_in (range (count images))
           (fun i drawn => _ ← show_one sqrtn sqrtimg (size images) i; Ok (S drawn))
           0.

(** The cell that shows the snapshots of a training run, [numIter] being
    its counter. *)
Fixpoint snapshots (numIter : Z) (images : list batch) : cell Z :=
  match images with
  | [] => mret numIter
  | img :: images' =>
      _ ← emit (PrintInt "Iter: {}" numIter);
      _ ← run (show_images img);
      _ ← emit Figure;
      let numIter := (numIter + 20)%Z in
      _ ← emit (Print "");
      snapshots numIter images'
  end.

Definition snapshots_cell (images : list batch) : cell Z := snapshots 0 images.


Section Saliency.
Context `{NetVis.TF}.
(** [compute_saliency_maps] of the course package and the dict of class
    names that [load_imagenet_val] gave. *)
Variable compute_saliency_maps :
  list NetVis.image -> list nat -> NetVis.model NetVis.weights ->
  list (list (list Q)).
Variable class_names : gmap nat string.


End Saliency.

End Plots.

(** ** Small instances for the TensorFlow style transfer *)

Module SmallTF.

Definition total (X : NetVis.image) : Q :=
  foldr Qplus 0%Q (concat (concat X)).

Definition style : StyleTransferTF.TF := {|
  StyleTransferTF.tensor := Q;
  StyleTransferTF.weights := nat;
  StyleTransferTF.add x y := Qred (x + y);
  StyleTransferTF.open_image name size :=
    if String.eqb name "" then inl "FileNotFoundError"
    else inr [[[1; 0; 2]; [0; 1; 0]]]%Q;
  StyleTransferTF.random_uniform lo hi X seed := X;
  StyleTransferTF.gradient f X := map (map (map (fun x => Qred (2 * x)))) X;
  StyleTransferTF.adam_state := nat;
  StyleTransferTF.adam_fresh := 0;
  StyleTransferTF.adam_update rate a g X :=
    (map (map (map (fun x => Qred (x - rate * 7)))) X, S a);
  StyleTransferTF.extract_features X w := replicate 8 (Qred (total X));
  StyleTransferTF.content_loss w a b := Qred (w * ((a - b) * (a - b)));
  StyleTransferTF.gram_matrix f := Qred (f * f);
  StyleTransferTF.style_loss feats layers targets ws := 0%Q;
  StyleTransferTF.tv_loss X w := 0%Q;
  StyleTransferTF.rel_error x r :=
    match r with
    | Tensor y => inr (Small.rel_error x y)
    | NoneObject => inl "TypeError"
    end;
  StyleTransferTF.item x := inr x;
  StyleTransferTF.zeros X := map (map (map (fun _ => 0%Q))) X;
  StyleTransferTF.tv_loss_source :=
    codes <$> ["def tv_loss(img, tv_weight):";
               "    return tv_weight * total(img)"]
|}.

(** What a student hands in: the content loss of the notebook's formula,
    and three functions whose body is still [pass]. *)
Definition handed_in : @StyleTransferTF.submission style :=
  @StyleTransferTF.Submission style
    (fun w a b => inr (Tensor (Qred (w * ((a - b) * (a - b))))))
    (fun f => inr NoneObject)
    (fun feats layers targets ws => inr NoneObject)
    (fun X w => inr NoneObject).

End SmallTF.

(** * Properties *)

(** ** The notebooks on small inputs *)

Example replace_checks_path :
  replace "style-transfer-checks.npz" "styles" "a/b/style-transfer-checks.npz"
  = "a/b/styles".
Proof. reflexivity. Qed.

Example search_for_in_loop :
  StyleTransfer.search_for_in (codes "    for i in range(3):") = true.
Proof. reflexivity. Qed.

Example search_for_in_word :
  StyleTransfer.search_for_in (codes "    return information in") = false.
Proof. reflexivity. Qed.

(** The pattern wants one run of non-blank characters between "for" and
    "in": a loop over pairs is not seen. *)
Example search_for_in_pairs :
  StyleTransfer.search_for_in (codes "    for i, j in pairs:") = false.
Proof. reflexivity. Qed.

(** A no-break space (U+00A0) ends the run as a blank does, and is not the
    blank of " in". *)
Example search_for_in_no_break_space :
  StyleTransfer.search_for_in (codes "for a" ++ [160%N] ++ codes "b in c")
  = false
  /\ StyleTransfer.search_for_in (codes "for a" ++ [160%N] ++ codes " in c")
     = false
  /\ StyleTransfer.search_for_in (codes "x = 1  # for" ++ [160%N] ++ codes "for b in c")
     = true.
Proof. split_and!; reflexivity. Qed.

Example checks_cell_unset :
  @StyleTransfer.checks_cell (Small.torch Small.content_loss) None
  = ([], Raise (AssertionError "[!] Choose path to style-transfer-checks.npz")).
Proof. reflexivity. Qed.

Example model_cell_small :
  @NetVis.model_cell Small.tf None
  = Raise (AssertionError "[!] Choose path to squeezenet.ckpt")
  /\ @NetVis.model_cell Small.tf (Some "elsewhere.ckpt")
     = Raise (ValueError "You need to download SqueezeNet!")
  /\ @NetVis.model_cell Small.tf (Some "squeezenet.ckpt")
     = Ok (NetVis.Model 1 false).
Proof. split_and!; reflexivity. Qed.

Example jitter_small :
  NetVis.jitter [[[0]; [1]; [2]]; [[3]; [4]; [5]]]%Q 1 1
  = [[[5]; [3]; [4]]; [[2]; [0]; [1]]]%Q.
Proof. reflexivity. Qed.

Example argmax_first :
  NetVis.argmax [1; 3; 2; 3]%Q = Ok 1.
Proof. reflexivity. Qed.

Example test_sample_noise_small :
  @Gan.test_sample_noise Small.gan 0 = ([Print "All tests passed!"], Ok tt).
Proof. reflexivity. Qed.

Example test_lsgan_loss_small :
  @Gan.test_lsgan_loss Small.gan 1%Q 2%Q 3%Q 4%Q
  = ([PrintNum "Maximum error in d_loss: %g" (1 # 5);
      PrintNum "Maximum error in g_loss: %g" (7 # 9)], Ok tt).
Proof. reflexivity. Qed.

(** ** Loops and cells *)

Section LoopFacts.
Context {S : Type}.
Implicit Types (body : nat -> S -> result S) (s : S).

Lemma for_in_app ts1 ts2 body s :
  for_in (ts1 ++ ts2) body s = s' ← for_in ts1 body s; for_in ts2 body s'.
Proof.
  revert s. induction ts1 as [|t ts1 IH]; intros s; simpl; [done|].
  destruct (body t s) as [s'|e]; simpl; [apply IH|done].
Qed.

Lemma range_succ n : range (Datatypes.S n) = range n ++ [n].
Proof. unfold range. by rewrite seq_S. Qed.

Lemma for_in_succ n body s :
  for_in (range (Datatypes.S n)) body s
  = s' ← for_in (range n) body s; body n s'.
Proof.
  rewrite range_succ, for_in_app.
  destruct (for_in (range n) body s) as [s'|e]; simpl; [|done].
  by destruct (body n s').
Qed.

(** An invariant of the body that holds at the start holds after every
    number of iterations that complete. *)
Lemma for_in_invariant (I : nat -> S -> Prop) body s0 :
  I 0 s0 ->
  (forall t s s', I t s -> body t s = Ok s' -> I (Datatypes.S t) s') ->
  forall n s, for_in (range n) body s0 = Ok s -> I n s.
Proof.
  intros H0 Hstep. induction n as [|n IH]; intros s.
  - simpl. intros [= <-]. done.
  - rewrite for_in_succ.
    destruct (for_in (range n) body s0) as [s'|e] eqn:E; simpl; [|done].
    intros Hb. eapply Hstep; [|exact Hb]. by apply IH.
Qed.

(** A loop whose body completes from every state that satisfies the
    invariant completes. *)
Lemma for_in_total (I : nat -> S -> Prop) body s0 :
  I 0 s0 ->
  (forall t s, I t s -> exists s', body t s = Ok s' /\ I (Datatypes.S t) s') ->
  forall n, exists s, for_in (range n) body s0 = Ok s /\ I n s.
Proof.
  intros H0 Hstep. induction n as [|n [s [E Hs]]].
  - exists s0. done.
  - destruct (Hstep n s Hs) as (s' & Eb & Hs').
    exists s'. rewrite for_in_succ, E. simpl. done.
Qed.
End LoopFacts.

(** ** Style Transfer *)

Section StyleTransferFacts.
Import StyleTransfer.
Context `{Torch}.



Lemma data_accumulate l g : data (accumulate l g) = data l.
Proof. unfold accumulate. by destruct (requires_grad l). Qed.

(** [backward] leaves the data of every parameter alone, and a frozen
    parameter altogether. *)
Lemma accumulate_frozen l g : requires_grad l = false -> accumulate l g = l.
Proof. unfold accumulate. by intros ->. Qed.

Lemma weights_imap (f : nat -> leaf tensor -> leaf tensor) c :
  (forall i l, data (f i l) = data l) ->
  weights (imap f c) = weights c.
Proof.
  intros Hf. unfold weights. rewrite fmap_imap.
  rewrite <- (imap_const data c). apply imap_ext.
  intros i l _. simpl. apply Hf.
Qed.

Lemma frozen_imap (f : nat -> leaf tensor -> leaf tensor) c :
  (forall i l, requires_grad l = false -> f i l = l) ->
  frozen c -> imap f c = c.
Proof.
  intros Hf Hc. apply list_eq. intros i. rewrite list_lookup_imap.
  destruct (c !! i) as [l|] eqn:E; simpl; [|done].
  unfold frozen in Hc. rewrite Forall_lookup in Hc.
  by rewrite (Hf i l (Hc i l E)).
Qed.

Section Run.
Variables (p : params) (content_target : tensor) (style_targets : list tensor).

Abbreviation body := (iteration p content_target style_targets).
Abbreviation loss := (loss_of p content_target style_targets).

(** One iteration, from a state in which the optimizer holds the image
      alone and the image requires a gradient. *)
Lemma iteration_eq t st rate a x g0 l :
  opt st = Adam rate [(Image, a)] ->
  img (mem st) = Leaf x true g0 ->
  let c := cnn (mem st) in
  let w := weights c in
  let x1 := if t <? 190 then clamp (-3 # 2) (3 # 2) x else x in
  let g1 := gradient (loss w) x1 in
  let rate' := if t =? decay_lr_at then decayed_lr else rate in
  let a' := if t =? decay_lr_at then adam_fresh else a in
  loss w x1 = Ok l ->
  body t st =
    Ok (LoopState
          (Store (imap (fun i l =>
                          accumulate l
                            (gradient (fun v => loss (<[i := v]> w) x1) (data l))) c)
                 (Leaf (adam_update rate' a' g1 x1).1 true (Some g1)))
          (Adam rate' [(Image, (adam_update rate' a' g1 x1).2)])
          (if t mod 100 =? 0
           then out st ++ [PrintInt "Iteration {}" (Z.of_nat t); Figure]
           else out st)).
Proof.
  destruct st as [[c i] o es]. simpl. intros -> ->. intros Hl.
  unfold iteration, zero_grad, clamp_img, backward, step, new_Adam.
  destruct (t <? 190); simpl in *; rewrite Hl; simpl;
    destruct (t =? decay_lr_at); simpl;
    destruct (adam_update _ _ _ _); done.
Qed.

Lemma iteration_loss t st st' rate a x g0 :
  opt st = Adam rate [(Image, a)] ->
  img (mem st) = Leaf x true g0 ->
  body t st = Ok st' ->
  exists l,
    loss (weights (cnn (mem st)))
         (if t <? 190 then clamp (-3 # 2) (3 # 2) x else x) = Ok l.
Proof.
  destruct st as [[c i] o es]. simpl. intros -> -> Hb.
  destruct (loss (weights c) (if t <? 190 then clamp (-3 # 2) (3 # 2) x else x))
    as [l|e] eqn:El; [by exists l|].
  exfalso. revert Hb.
  unfold iteration, zero_grad, clamp_img.
  destruct (t <? 190); simpl in *; by rewrite El.
Qed.

Lemma loss_eq w x f :
  extract_features x w !! content_layer p = Some f ->
  loss w x =
    Ok (add (add (content_loss (content_weight p) f content_target)
                 (style_loss (extract_features x w) (style_layers p)
                             style_targets (style_weights p)))
            (tv_loss x (tv_weight p))).
Proof. intros E. unfold loss_of, getitem. by rewrite E. Qed.

Lemma rate_step t :
  (if t =? decay_lr_at then decayed_lr
   else if t <=? decay_lr_at then initial_lr else decayed_lr)
  = (if S t <=? decay_lr_at then initial_lr else decayed_lr).
Proof.
  unfold decay_lr_at.
  destruct (Nat.eqb_spec t 180), (Nat.leb_spec t 180),
    (Nat.leb_spec (S t) 180); try reflexivity; lia.
Qed.


Lemma at_iteration_start model x es :
  at_iteration model 0
    (LoopState (Store model (Leaf x true None)) (new_Adam [Image] initial_lr) es).
Proof. exists adam_fresh, x, None. split_and!; [reflexivity..|done]. Qed.

Lemma at_iteration_step model t st st' :
  at_iteration model t st -> body t st = Ok st' ->
  at_iteration model (S t) st'.
Proof.
  intros (a & x & g0 & Ho & Hi & Hw & Hf) Hb.
  destruct (iteration_loss _ _ _ _ _ _ _ Ho Hi Hb) as [l Hl].
  rewrite (iteration_eq _ _ _ _ _ _ _ Ho Hi Hl) in Hb.
  injection Hb as <-.
  eexists _, _, _. split_and!; cbn [opt mem img cnn]; [|done| |].
  - by rewrite <- rate_step.
  - rewrite weights_imap; [done|]. intros. apply data_accumulate.
  - intros Hm. rewrite (Hf Hm). apply frozen_imap; [|done].
    intros. by apply accumulate_frozen.
Qed.


Lemma run_total model x es :
  (forall x w, content_layer p < length (extract_features x w)) ->
  forall n, exists st,
    for_in (range n) body
      (LoopState (Store model (Leaf x true None)) (new_Adam [Image] initial_lr) es)
    = Ok st.
Proof.
  intros Hlen n.
  destruct (for_in_total (at_iteration model) body
              (LoopState (Store model (Leaf x true None))
                         (new_Adam [Image] initial_lr) es)) with (n := n)
    as (st & E & _); [apply at_iteration_start| |by exists st].
  intros t st (a & x' & g0 & Ho & Hi & Hw & Hf).
  destruct (lookup_lt_is_Some_2 _ _
              (Hlen (if t <? 190 then clamp (-3 # 2) (3 # 2) x' else x')
                    (weights (cnn (mem st))))) as [f Ef].
  pose proof (iteration_eq t st _ _ _ _ _ Ho Hi (loss_eq _ _ _ Ef)) as Eb.
  eexists. split; [exact Eb|].
  eapply at_iteration_step; [|exact Eb]. by exists a, x', g0.
Qed.
End Run.

Lemma collect_getitem {A B} (feats : list A) (g : A -> B) idxs :
  Forall (fun idx => idx < length feats) idxs ->
  exists ys,
    collect (fun idx => f ← getitem feats idx; Ok (g f)) idxs = Ok ys
    /\ Forall2 (fun idx y => exists f, feats !! idx = Some f /\ y = g f) idxs ys.
Proof.
  induction 1 as [|idx idxs Hlt _ (ys & E & Hys)].
  - exists []. split; [done|constructor].
  - destruct (lookup_lt_is_Some_2 _ _ Hlt) as [f Ef].
    exists (g f :: ys). split.
    + cbn [collect]. rewrite E. unfold getitem. by rewrite Ef.
    + constructor; [by exists f|done].
Qed.

Lemma prepare_ok p seed model content_img style_img :
  open_image (content_image p) (image_size p) = inr content_img ->
  open_image (style_image p) (style_size p) = inr style_img ->
  content_layer p < length (extract_features content_img (weights model)) ->
  Forall (fun idx => idx < length (extract_features style_img (weights model)))
         (style_layers p) ->
  exists content_target style_targets,
    extract_features content_img (weights model) !! content_layer p
    = Some content_target
    /\ Forall2 (fun idx g =>
                  exists f, extract_features style_img (weights model) !! idx = Some f
                            /\ g = gram_matrix f)
               (style_layers p) style_targets
    /\ prepare p seed model =
         Ok (content_target, style_targets,
             LoopState
               (Store model
                  (Leaf (if init_random p
                         then uniform_ 0 1 content_img seed else content_img)
                        true None))
               (new_Adam [Image] initial_lr) [Figure; Figure]).
Proof.
  intros Ec Es Hc Hs.
  destruct (lookup_lt_is_Some_2 _ _ Hc) as [ct Ect].
  destruct (collect_getitem _ gram_matrix _ Hs) as (sts & Ests & Hsts).
  exists ct, sts. split_and!; [done..|].
  unfold prepare. rewrite Ec. cbn [call mbind result_bind].
  replace (getitem (extract_features content_img (weights model)) (content_layer p))
    with (Ok ct) by (unfold getitem; by rewrite Ect).
  rewrite Es. cbn [call mbind result_bind]. by rewrite Ests.
Qed.

Lemma prepare_inv p seed model content_target style_targets st0 :
  prepare p seed model = Ok (content_target, style_targets, st0) ->
  exists x es,
    st0 = LoopState (Store model (Leaf x true None))
                    (new_Adam [Image] initial_lr) es.
Proof.
  unfold prepare.
  destruct (open_image (content_image p) (image_size p)) as [?|ci]; [done|].
  simpl. destruct (getitem _ (content_layer p)) as [ct|?]; [|done].
  simpl. destruct (open_image (style_image p) (style_size p)) as [?|si]; [done|].
  simpl. destruct (collect _ (style_layers p)) as [sts|?]; [|done].
  simpl. intros [= _ _ <-]. eauto.
Qed.
End StyleTransferFacts.

Section StyleTransferRun.
Import StyleTransfer.
Context `{Torch}.
Variables (p : params) (seed : N) (model : list (leaf tensor)).
Variables (content_img style_img : tensor).

Hypothesis content_opens :
  open_image (content_image p) (image_size p) = inr content_img.
Hypothesis style_opens :
  open_image (style_image p) (style_size p) = inr style_img.
Hypothesis content_layer_exists :
  forall x w, content_layer p < length (extract_features x w).
Hypothesis style_layers_exist :
  Forall (fun idx => idx < length (extract_features style_img (weights model)))
         (style_layers p).



End StyleTransferRun.



(** ** Network Visualization *)

Section JitterFacts.
Import NetVis.

Lemma roll_undo {A} (k : Z) (l : list A) :
  (0 <= k)%Z -> roll (- k) (roll k l) = l.
Proof.
  intros Hk. unfold roll.
  destruct (Z.ltb_spec 0 (- k)) as [?|_]; [lia|].
  rewrite Z.opp_involutive.
  destruct (Z.ltb_spec 0 k) as [Hpos|?].
  - set (n := length l - Z.to_nat k).
    destruct (decide (Z.to_nat k <= length l)) as [Hle|Hgt].
    + assert (Hlen : length (drop n l) = Z.to_nat k).
      { rewrite length_drop. unfold n. lia. }
      rewrite take_app_length', drop_app_length' by done.
      apply take_drop.
    + assert (n = 0) as -> by (unfold n; lia).
      rewrite drop_0, take_0, app_nil_r.
      rewrite take_ge, drop_ge by lia. done.
  - assert (k = 0)%Z as -> by lia. simpl.
    by rewrite !drop_0, !take_0, !app_nil_r.
Qed.

Lemma roll_map {A B} (f : A -> B) (k : Z) (l : list A) :
  roll k (map f l) = map f (roll k l).
Proof.
  unfold roll. rewrite List.length_map.
  destruct (0 <? k)%Z; by rewrite List.map_app, List.skipn_map, List.firstn_map.
Qed.

Lemma map_roll_undo {A} (k : Z) (X : list (list A)) :
  (0 <= k)%Z -> map (roll (- k)) (map (roll k) X) = X.
Proof.
  intros Hk. rewrite List.map_map. rewrite <- (List.map_id X) at 2.
  apply List.map_ext. intros row. by apply roll_undo.
Qed.

(** The second jitter of an iteration, by the negated offsets, undoes the
    first. *)
Lemma jitter_undo (X : image) (ox oy : Z) :
  (0 <= ox)%Z -> (0 <= oy)%Z -> jitter (jitter X ox oy) (- ox) (- oy) = X.
Proof.
  intros Hx Hy. unfold jitter.
  destruct (Z.eqb_spec ox 0) as [->|Hox], (Z.eqb_spec oy 0) as [->|Hoy]; simpl.
  - done.
  - destruct (Z.eqb_spec (- oy) 0); [lia|]. by apply roll_undo.
  - destruct (Z.eqb_spec (- ox) 0); [lia|]. by apply map_roll_undo.
  - destruct (Z.eqb_spec (- ox) 0); [lia|].
    destruct (Z.eqb_spec (- oy) 0); [lia|].
    rewrite <- roll_map, roll_undo by done. by apply map_roll_undo.
Qed.

Lemma randint2_range low high g a b g' :
  randint2 low high g = Ok (a, b, g') ->
  (low <= a < high)%Z /\ (low <= b < high)%Z
  /\ drawn g' = S (S (drawn g)) /\ entropy g' = entropy g.
Proof.
  unfold randint2. destruct (Z.ltb_spec low high) as [Hlt|?]; [|done].
  simpl. intros [= <- <- <-]. simpl.
  pose proof (Z.mod_pos_bound (Z.of_N (entropy g (drawn g))) (high - low)).
  pose proof (Z.mod_pos_bound (Z.of_N (entropy g (S (drawn g)))) (high - low)).
  split_and!; try done; lia.
Qed.

Lemma randint2_ok low high g :
  (low < high)%Z -> exists a b g', randint2 low high g = Ok (a, b, g').
Proof.
  intros Hlt. unfold randint2.
  destruct (Z.ltb_spec low high); [|lia]. simpl. eauto.
Qed.

Lemma clip_pixel_clipped v lo hi : clipped lo hi (clip_pixel v lo hi).
Proof.
  revert lo hi. induction v as [|x v IH]; intros [|a lo] [|b hi] i y a' b';
    simpl; try done.
  destruct i as [|i]; simpl.
  - intros [= <-] [= <-] [= <-]. split.
    + apply Q.le_min_r.
    + intros Hab. apply Q.min_glb; [apply Q.le_max_r|done].
  - apply IH.
Qed.

Lemma clip_by_value_clipped X lo hi :
  Forall (Forall (clipped lo hi)) (clip_by_value X lo hi).
Proof.
  unfold clip_by_value. apply Forall_forall. intros row Hrow.
  apply list_elem_of_In, List.in_map_iff in Hrow as (row' & <- & _).
  apply Forall_forall. intros v Hv.
  apply list_elem_of_In, List.in_map_iff in Hv as (v' & <- & _).
  apply clip_pixel_clipped.
Qed.

Lemma clip_pixel_lookup v lo hi i x a b :
  v !! i = Some x -> lo !! i = Some a -> hi !! i = Some b ->
  clip_pixel v lo hi !! i = Some (Qmin (Qmax x a) b).
Proof.
  revert lo hi i. induction v as [|y v IH]; intros [|a' lo] [|b' hi] [|i];
    simpl; try done.
  - by intros [= ->] [= ->] [= ->].
  - apply IH.
Qed.

Lemma lookup_map {A B} (f : A -> B) l i x :
  l !! i = Some x -> map f l !! i = Some (f x).
Proof.
  revert i. induction l as [|y l IH]; intros [|i]; simpl; try done.
  - by intros [= ->].
  - apply IH.
Qed.

Lemma clip_by_value_lookup X lo hi r c row v :
  X !! r = Some row -> row !! c = Some v ->
  exists row',
    clip_by_value X lo hi !! r = Some row'
    /\ row' !! c = Some (clip_pixel v lo hi).
Proof.
  intros Hr Hc. unfold clip_by_value.
  exists (map (fun v => clip_pixel v lo hi) row). split.
  - by apply (lookup_map (map (fun v => clip_pixel v lo hi))).
  - by apply (lookup_map (fun v => clip_pixel v lo hi)).
Qed.

Lemma clip_by_value_length X lo hi :
  length (clip_by_value X lo hi) = length X.
Proof. unfold clip_by_value. apply length_map. Qed.
End JitterFacts.

Section ClassVisualization.
Import NetVis.
Context `{TF}.
Variables (class_names : gmap nat string) (target_y : nat) (kw : kwargs).

Abbreviation l2 := (pop (l2_reg kw) (1 # 1000)%Q).
Abbreviation rate := (pop (learning_rate kw) 25%Q).
Abbreviation n_iter := (pop (num_iterations kw) 100%Z).
Abbreviation blur := (pop (blur_every kw) 10%Z).
Abbreviation jit := (pop (max_jitter kw) 16%Z).
Abbreviation show := (pop (show_every kw) 25%Z).

Lemma iterations_succ g m n :
  iterations class_names target_y kw g m (S n)
  = st ← iterations class_names target_y kw g m n;
    iteration class_names target_y kw n st.
Proof.
  unfold iterations. destruct (random_image g) as [X g0]. apply for_in_succ.
Qed.

Lemma clip_bounds_lookup i mean std :
  SQUEEZENET_MEAN !! i = Some mean -> SQUEEZENET_STD !! i = Some std ->
  clip_min !! i = Some (- mean / std)%Q
  /\ clip_max !! i = Some ((1 - mean) / std)%Q.
Proof.
  intros Hm Hs. unfold clip_min, clip_max.
  by rewrite !lookup_zip_with, Hm, Hs.
Qed.

Hypothesis jitter_positive : (0 < jit)%Z.
Hypothesis blur_not_zero : blur <> 0%Z.
Hypothesis show_not_zero : show <> 0%Z.
Hypothesis target_named : is_Some (class_names !! target_y).
Hypothesis update_returns : forall X m y l r,
  exists X' m', class_visualization_update_step X m y l r = inr (X', m').

(** One iteration, from any state. *)
Lemma visualization_iteration t st :
  exists ox oy g' U m',
    randint2 0 jit (gen st) = Ok (ox, oy, g')
    /\ (0 <= ox < jit)%Z /\ (0 <= oy < jit)%Z
    /\ class_visualization_update_step (jitter (X_ st) ox oy) (net st)
                                        target_y l2 rate = inr (U, m')
    /\ let C := clip_by_value (jitter U (- ox) (- oy)) clip_min clip_max in
       iteration class_names target_y kw t st =
         Ok (LoopState
               (if (Z.of_nat t mod blur =? 0)%Z then blur_image C (1 # 2) else C)
               g' m'
               (if (t =? 0) || ((Z.of_nat t + 1) mod show =? 0)%Z
                   || (Z.of_nat t =? n_iter - 1)%Z
                then shown st ++ [Figure] else shown st)).
Proof.
  destruct (randint2_ok 0 jit (gen st) jitter_positive) as (ox & oy & g' & E).
  destruct (randint2_range _ _ _ _ _ _ E) as (Hx & Hy & _).
  destruct (update_returns (jitter (X_ st) ox oy) (net st) target_y l2 rate)
    as (U & m' & EU).
  destruct target_named as [name Ename].
  exists ox, oy, g', U, m'. split_and!; [done|lia..|done|].
  cbv zeta. unfold iteration. rewrite E. cbn [mbind result_bind].
  rewrite EU. cbn [call mbind result_bind]. unfold pymod, entry.
  destruct (Z.eqb_spec blur 0) as [?|_]; [done|].
  destruct (Z.eqb_spec show 0) as [?|_]; [done|].
  cbn [mbind result_bind]. rewrite Ename.
  destruct (t =? 0); cbn [mbind result_bind orb].
  - done.
  - by destruct (_ || _).
Qed.

Lemma visualization_runs g m n :
  exists st, iterations class_names target_y kw g m n = Ok st.
Proof.
  unfold iterations. destruct (random_image g) as [X g0].
  destruct (for_in_total (fun _ _ => True) (iteration class_names target_y kw)
              (LoopState (preprocess_image X) g0 m [])) with (n := n)
    as (st & E & _); [done| |by exists st].
  intros t st _.
  destruct (visualization_iteration t st)
    as (ox & oy & g' & U & m' & _ & _ & _ & _ & E).
  eauto.
Qed.

(** C6.  [create_class_visualization] makes [num_iterations] iterations.
    Iteration [t] draws the offsets [ox] and [oy] from [0, max_jitter),
    jitters the image by them, makes one update step with [l2_reg] and
    [learning_rate], jitters the result by [-ox] and [-oy], which undoes a
    jitter by [ox] and [oy], clips every channel of every pixel of that
    image to the interval from [-SQUEEZENET_MEAN/SQUEEZENET_STD] to
    [(1.0 - SQUEEZENET_MEAN)/SQUEEZENET_STD] of the channel, leaving the
    number of rows as it was, and blurs the clipped image with sigma 0.5
    exactly when [t mod blur_every] is 0. *)
Theorem class_visualization_iteration g m :
  (exists st,
     create_class_visualization class_names target_y kw g m = Ok st
     /\ iterations class_names target_y kw g m (Z.to_nat n_iter) = Ok st)
  /\ forall t, (Z.of_nat t < n_iter)%Z ->
       exists st st' ox oy g' U m',
         iterations class_names target_y kw g m t = Ok st
         /\ iterations class_names target_y kw g m (S t) = Ok st'
         /\ randint2 0 jit (gen st) = Ok (ox, oy, g')
         /\ (0 <= ox < jit)%Z /\ (0 <= oy < jit)%Z
         /\ class_visualization_update_step (jitter (X_ st) ox oy) (net st)
                                             target_y l2 rate = inr (U, m')
         /\ (forall Y, jitter (jitter Y ox oy) (- ox) (- oy) = Y)
         /\ let V := jitter U (- ox) (- oy) in
            let C := clip_by_value V clip_min clip_max in
            length C = length V
            /\ (forall r c i row v x mean std,
                  V !! r = Some row -> row !! c = Some v -> v !! i = Some x ->
                  SQUEEZENET_MEAN !! i = Some mean ->
                  SQUEEZENET_STD !! i = Some std ->
                  exists row' v',
                    C !! r = Some row' /\ row' !! c = Some v'
                    /\ v' !! i = Some (Qmin (Qmax x (- mean / std))
                                             ((1 - mean) / std)))
            /\ Forall (Forall (clipped clip_min clip_max)) C
            /\ X_ st' = (if (Z.of_nat t mod blur =? 0)%Z
                         then blur_image C (1 # 2) else C)
            /\ gen st' = g' /\ net st' = m'.
Proof.
  split.
  - destruct (visualization_runs g m (Z.to_nat n_iter)) as [st E].
    exists st. by split.
  - intros t _.
    destruct (visualization_runs g m t) as [st E].
    destruct (visualization_iteration t st)
      as (ox & oy & g' & U & m' & Er & Hx & Hy & EU & Ei).
    eexists st, _, ox, oy, g', U, m'.
    split; [done|]. split; [rewrite iterations_succ, E; exact Ei|].
    split; [done|]. split; [done|]. split; [done|]. split; [done|].
    split; [intros Y; apply jitter_undo; lia|].
    cbv zeta. split_and!; [apply clip_by_value_length| |
                           apply clip_by_value_clipped|done..].
    intros r c i row v x mean std Hr Hc Hi Hm Hs.
    destruct (clip_by_value_lookup _ clip_min clip_max _ _ _ _ Hr Hc)
      as (row' & Hr' & Hc').
    destruct (clip_bounds_lookup i mean std Hm Hs) as [Hlo Hhi].
    exists row', (clip_pixel v clip_min clip_max).
    split_and!; [done..|]. by apply clip_pixel_lookup.
Qed.
End ClassVisualization.

Lemma class_visualization_iteration_witness :
  exists st,
    @NetVis.create_class_visualization Small.tf Small.class_names 76
      Small.no_kwargs Small.generator_0 (NetVis.Model 1 false) = Ok st
    /\ @NetVis.iterations Small.tf Small.class_names 76 Small.no_kwargs
         Small.generator_0 (NetVis.Model 1 false) 100 = Ok st.
Proof.
  apply (@class_visualization_iteration Small.tf Small.class_names 76
           Small.no_kwargs).
  - simpl. lia.
  - simpl. lia.
  - simpl. lia.
  - by eexists.
  - intros X m y l r. by exists X, m.
Defined.

Section FoolingFacts.
Import NetVis.

Lemma argmax_from_first_max l : forall pre best top,
  pre !! best = Some top ->
  (forall j w, pre !! j = Some w -> (w <= top)%Q /\ (j < best -> (w < top)%Q)) ->
  exists v,
    (pre ++ l) !! argmax_from best top (length pre) l = Some v
    /\ forall j w, (pre ++ l) !! j = Some w ->
         (w <= v)%Q /\ (j < argmax_from best top (length pre) l -> (w < v)%Q).
Proof.
  induction l as [|x l IH]; intros pre best top Hbest Hpre; simpl.
  - rewrite app_nil_r. exists top. split; [done|]. intros j w. apply Hpre.
  - pose proof (lookup_lt_Some _ _ _ Hbest) as Hlt.
    replace (pre ++ x :: l) with ((pre ++ [x]) ++ l) by (by rewrite <- app_assoc).
    replace (S (length pre)) with (length (pre ++ [x]))
      by (rewrite length_app; simpl; lia).
    destruct (Qle_bool x top) eqn:E.
    + apply Qle_bool_iff in E. apply IH.
      * by rewrite lookup_app_l.
      * intros j w Hj. apply lookup_app_Some in Hj as [Hj|[Hge Hj]].
        { by apply Hpre. }
        apply list_lookup_singleton_Some in Hj as [_ <-].
        split; [done|lia].
    + assert (top < x)%Q as Htop.
      { apply Qnot_le_lt. intros Hle. apply Qle_bool_iff in Hle. congruence. }
      apply IH.
      * rewrite lookup_app_r by lia. by rewrite Nat.sub_diag.
      * intros j w Hj. apply lookup_app_Some in Hj as [Hj|[Hge Hj]].
        { destruct (Hpre j w Hj) as [Hle _]. split.
          - apply Qlt_le_weak. by apply Qle_lt_trans with top.
          - intros _. by apply Qle_lt_trans with top. }
        apply list_lookup_singleton_Some in Hj as [_ <-].
        split; [apply Qle_refl|lia].
Qed.

(** [argmax] gives the first position of the greatest score. *)
Lemma argmax_first_max s i :
  argmax s = Ok i ->
  exists v, s !! i = Some v
            /\ forall j w, s !! j = Some w -> (w <= v)%Q /\ (j < i -> (w < v)%Q).
Proof.
  destruct s as [|x s]; [done|]. simpl. intros [= <-].
  apply (argmax_from_first_max s [x] 0 x); [done|].
  intros [|j] w; simpl; [|done]. intros [= <-]. split; [apply Qle_refl|lia].
Qed.

Context `{TF}.

(** C5.  The check after [make_fooling_image] raises AssertionError "The
    network is not fooled!" exactly when the argmax of the scores of the
    model on [X_fooling] is not [target_y = 6]; the cell goes on exactly
    when it is, the score of class 6 then being the greatest. *)
Theorem fooling_image_check (X : list image) (m : model weights)
    (Xi : image) (scores : list (list Q)) (s : list Q) :
  X !! 0 = Some Xi ->
  predict (variables (make_fooling_image Xi 6 m).2) (make_fooling_image Xi 6 m).1
  = inr scores ->
  scores !! 0 = Some s ->
  ((fooling_cell X m).2 = Raise (AssertionError "The network is not fooled!")
   <-> exists i, argmax s = Ok i /\ i <> 6)
  /\ ((fooling_cell X m).2 = Ok (make_fooling_image Xi 6 m).2 <-> argmax s = Ok 6)
  /\ ((fooling_cell X m).2 = Ok (make_fooling_image Xi 6 m).2 ->
      exists v, s !! 6 = Some v /\ forall j w, s !! j = Some w -> (w <= v)%Q).
Proof.
  intros EX Ep Es.
  assert (Ecell : (fooling_cell X m).2 =
                  (a ← argmax s;
                   _ ← assert (a =? 6) "The network is not fooled!";
                   Ok (make_fooling_image Xi 6 m).2)).
  { unfold fooling_cell, getitem. rewrite EX. simpl.
    destruct (make_fooling_image Xi 6 m) as [Xf m']. simpl in *.
    rewrite Ep. simpl. rewrite Es. simpl.
    destruct (argmax s) as [a|e]; simpl; [|done].
    destruct (a =? 6); done. }
  rewrite Ecell.
  assert (Hiff : (a ← argmax s;
                  _ ← assert (a =? 6) "The network is not fooled!";
                  Ok (make_fooling_image Xi 6 m).2)
                 = Ok (make_fooling_image Xi 6 m).2 <-> argmax s = Ok 6).
  { destruct (argmax s) as [a|e]; simpl; [|done].
    destruct (Nat.eqb_spec a 6) as [->|Hne]; simpl; [done|].
    split; [done|]. intros [= ?]. done. }
  split_and!.
  - destruct (argmax s) as [a|e] eqn:Ea; simpl.
    + destruct (Nat.eqb_spec a 6) as [->|Hne]; simpl.
      * split; [done|]. intros (i & [= <-] & Hi). done.
      * split; [|done]. intros _. by exists a.
    + destruct s; [|done]. injection Ea as <-.
      split; [done|]. intros (i & ? & _). done.
  - exact Hiff.
  - intros Hok. apply Hiff in Hok.
    destruct (argmax_first_max s 6 Hok) as (v & Hv & Hmax).
    exists v. split; [done|]. intros j w Hj. by apply (Hmax j w).
Qed.
End FoolingFacts.

Lemma fooling_image_check_witness :
  (@NetVis.fooling_cell Small.tf [[]] (NetVis.Model 1 false)).2
  = Ok (NetVis.Model 1 false).
Proof.
  apply (@fooling_image_check Small.tf [[]] (NetVis.Model 1 false) []
           [[0; 0; 0; 0; 0; 0; 1]%Q] [0; 0; 0; 0; 0; 0; 1]%Q);
    reflexivity.
Defined.

(** ** Setup cells and the frozen feature extractor *)

Section Setup.
Context `{StyleTransfer.Torch} `{NetVis.TF}.

(** C3.  The cell of the style-transfer notebook that sets [CHECKS_PATH]
    raises AssertionError "[!] Choose path to style-transfer-checks.npz"
    exactly when [CHECKS_PATH] is None, and then before [np.load] is
    called; the cell of the network-visualization notebook that sets
    [SAVE_PATH] raises AssertionError when [SAVE_PATH] is None and
    otherwise raises ValueError "You need to download SqueezeNet!" exactly
    when [SAVE_PATH + ".index"] does not exist; an exception of [np.load]
    or of [load_weights] comes out of the cell as it is. *)
Theorem setup_cells_fail_on_missing_paths :
  (forall CHECKS_PATH,
     (StyleTransfer.checks_cell CHECKS_PATH).2
     = Raise (AssertionError "[!] Choose path to style-transfer-checks.npz")
     <-> CHECKS_PATH = None)
  /\ (StyleTransfer.checks_cell None).1 = []
  /\ (forall path name,
        StyleTransfer.np_load path = inl name ->
        StyleTransfer.checks_cell (Some path)
        = ([Load path], Raise (LibraryError name)))
  /\ (forall path answers,
        StyleTransfer.np_load path = inr answers ->
        StyleTransfer.checks_cell (Some path)
        = ([Load path],
           Ok (replace "style-transfer-checks.npz" "styles" path, answers)))
  /\ (forall SAVE_PATH,
        NetVis.model_cell SAVE_PATH
        = Raise (AssertionError "[!] Choose path to squeezenet.ckpt")
        <-> SAVE_PATH = None)
  /\ (forall path,
        NetVis.model_cell (Some path)
        = Raise (ValueError "You need to download SqueezeNet!")
        <-> NetVis.path_exists (path +:+ ".index") = false)
  /\ (forall path name,
        NetVis.path_exists (path +:+ ".index") = true ->
        NetVis.load_weights NetVis.SqueezeNet path = inl name ->
        NetVis.model_cell (Some path) = Raise (LibraryError name))
  /\ (forall path w,
        NetVis.path_exists (path +:+ ".index") = true ->
        NetVis.load_weights NetVis.SqueezeNet path = inr w ->
        NetVis.model_cell (Some path) = Ok (NetVis.Model w false)).
Proof.
  split_and!.
  - intros [path|]; simpl; [|done].
    split; [|done]. unfold StyleTransfer.checks_cell. simpl.
    destruct (StyleTransfer.np_load path); simpl; done.
  - done.
  - intros path name E. unfold StyleTransfer.checks_cell. simpl. by rewrite E.
  - intros path answers E. unfold StyleTransfer.checks_cell. simpl. by rewrite E.
  - intros [path|]; [|done]. split; [|done].
    unfold NetVis.model_cell. simpl.
    destruct (NetVis.path_exists (path +:+ ".index")); simpl; [|done].
    destruct (NetVis.load_weights NetVis.SqueezeNet path); simpl; done.
  - intros path. unfold NetVis.model_cell. simpl.
    destruct (NetVis.path_exists (path +:+ ".index")); simpl; [|done].
    destruct (NetVis.load_weights NetVis.SqueezeNet path); simpl; done.
  - intros path name Ep El. unfold NetVis.model_cell. simpl.
    by rewrite Ep, El.
  - intros path w Ep El. unfold NetVis.model_cell. simpl.
    by rewrite Ep, El.
Qed.

(** [tape.gradient] of a score with respect to the image, for the two
    functions of the course package as they are modelled. *)
Variable score_gradient : NetVis.weights -> NetVis.image -> nat -> NetVis.image.

End Setup.


(** ** Generative Adversarial Networks *)

Section GanFacts.
Import Gan.

Lemma all_equal_Forall2 xs ys :
  all_equal xs ys = true <-> Forall2 Qeq xs ys.
Proof.
  revert ys. induction xs as [|x xs IH]; intros [|y ys]; simpl.
  - split; [constructor|done].
  - split; [done|]. intros Hf. inversion Hf.
  - split; [done|]. intros Hf. inversion Hf.
  - rewrite andb_true_iff, Qeq_bool_iff, IH. split.
    + intros [? ?]. by constructor.
    + intros Hf. by inversion Hf.
Qed.

Lemma array_equal_spec a b :
  array_equal a b = true
  <-> shape a = shape b /\ Forall2 Qeq (entries a) (entries b).
Proof.
  unfold array_equal.
  by rewrite andb_true_iff, bool_decide_eq_true, all_equal_Forall2.
Qed.

Lemma in_range_spec lo hi z :
  in_range lo hi z = true
  <-> Forall (fun x => (lo <= x)%Q /\ (x <= hi)%Q) (entries z).
Proof.
  unfold in_range. rewrite andb_true_iff, !forallb_forall, Forall_forall.
  setoid_rewrite Qle_bool_iff. setoid_rewrite <- list_elem_of_In.
  split; [intros [Hlo Hhi] x Hx; auto|].
  intros Hx. split; intros x Hin; by destruct (Hx x Hin).
Qed.

Context `{TF}.

(** C7.  [test_sample_noise] runs to its end exactly when the first sample
    is a [tf.Tensor] of shape [3, 4], the second and the third sample are
    not equal as arrays, and every entry of the second sample lies in
    [-1, 1]. *)
Theorem sample_noise_test (g : random_state) :
  let r := sample_noise 3 4 g in
  let r1 := sample_noise 3 4 r.2 in
  let r2 := sample_noise 3 4 r1.2 in
  (test_sample_noise g).2 = Ok tt
  <-> (kind_of r.1 = EagerTensor /\ shape r.1 = [3; 4])
      /\ ~ (shape r1.1 = shape r2.1 /\ Forall2 Qeq (entries r1.1) (entries r2.1))
      /\ Forall (fun x => (-1 <= x)%Q /\ (x <= 1)%Q) (entries r1.1).
Proof.
  intros r r1 r2. subst r r1 r2. unfold test_sample_noise.
  destruct (sample_noise 3 4 g) as [z g1]. cbn [fst snd].
  destruct (sample_noise 3 4 g1) as [z1 g2]. cbn [fst snd].
  destruct (sample_noise 3 4 g2) as [z2 g3]. cbn [fst snd].
  rewrite <- array_equal_spec, <- in_range_spec.
  unfold get_shape, is_Tensor.
  destruct z as [[] sh es]; simpl.
  - destruct (decide (sh = [3; 4])) as [->|Hsh].
    + rewrite bool_decide_eq_true_2 by done. simpl.
      destruct (array_equal z1 z2); simpl; [intuition (discriminate || congruence || eauto)|].
      destruct (in_range (-1) 1 z1); simpl; intuition (discriminate || congruence || eauto).
    + rewrite bool_decide_eq_false_2 by done. simpl. intuition (discriminate || congruence || eauto).
  - destruct (bool_decide (sh = [3; 4])); simpl; intuition (discriminate || congruence || eauto).
  - intuition (discriminate || congruence || eauto).
Qed.

(** C8.  The discriminator the notebook prescribes has 267009 parameters
    and the generator it prescribes has 1858320 of them for a noise of
    dimension 4, which are the counts [test_discriminator] and
    [test_generator] ask for. *)
Theorem prescribed_parameter_counts :
  count_params prescribed_discriminator = 267009%N
  /\ count_params (prescribed_generator 4) = 1858320%N
  /\ (forall noise_dim,
        count_params (prescribed_generator noise_dim)
        = (1024 * noise_dim + 1854224)%N)
  /\ test_discriminator 267009 (fun _ => prescribed_discriminator)
     = ([Print "Correct number of parameters in discriminator."], Ok tt)
  /\ test_generator 1858320 prescribed_generator
     = ([Print "Correct number of parameters in generator."], Ok tt).
Proof.
  split_and!; try reflexivity.
  intros n. unfold count_params. simpl. lia.
Qed.
End GanFacts.

(** ** The grading checks *)

Section Checks.
Context `{StyleTransfer.Torch} `{Gan.TF}.
Import StyleTransfer.







End Checks.

(** *** The checks on small inputs *)

Example content_loss_test_small :
  @StyleTransfer.content_loss_test (Small.torch Small.content_loss)
    (Small.handed_in Small.content_loss) "styles" [] (6 # 100)%Q
  = ([PrintNum "Maximum error is {:.3f}" 0%Q], Ok tt).
Proof. reflexivity. Qed.



(** * Further properties *)

(** ** Strings: [replace], [find] and the search for a loop *)

Section TextFacts.
Import Text.
Local Arguments String.append !_ _ / : simpl nomatch.

Lemma prefix_append old rest : String.prefix old (old +:+ rest) = true.
Proof.
  induction old as [|c old IH]; simpl; [by destruct rest|].
  destruct (ascii_dec c c); [done|congruence].
Qed.

Lemma replace_from_skip old new u rest :
  replace_from old new (String.length u) (u +:+ rest) = replace_from old new 0 rest.
Proof. induction u as [|c u IH]; simpl; done. Qed.

Lemma replace_occurrence old new rest :
  old <> "" -> replace old new (old +:+ rest) = new +:+ replace old new rest.
Proof.
  destruct old as [|c old]; [done|]. intros _. unfold replace.
  change (String c old +:+ rest) with (String c (old +:+ rest)).
  cbn [replace_from].
  change (String c (old +:+ rest)) with (String c old +:+ rest).
  rewrite prefix_append. cbn [String.length]. rewrite Nat.sub_1_r. cbn [Nat.pred].
  by rewrite replace_from_skip.
Qed.

Lemma replace_other old new c s :
  String.prefix old (String c s) = false ->
  replace old new (String c s) = String c (replace old new s).
Proof. intros Hp. unfold replace. cbn [replace_from]. by rewrite Hp. Qed.

(** Where [old] does not occur, [replace] changes nothing. *)
Lemma replace_absent old new s : find old s = None -> replace old new s = s.
Proof.
  induction s as [|c s IH]; [done|]. cbn [find].
  destruct (String.prefix old (String c s)) eqn:Hp; [done|].
  destruct (find old s); [done|]. intros _.
  rewrite replace_other by done. by rewrite IH.
Qed.

(** Up to the first occurrence of [old] nothing changes, and the
    occurrence becomes [new]. *)
Lemma replace_first old new d rest :
  old <> "" ->
  find old (d +:+ old +:+ rest) = Some (String.length d) ->
  replace old new (d +:+ old +:+ rest) = d +:+ new +:+ replace old new rest.
Proof.
  intros Hold. induction d as [|c d IH].
  - intros _. exact (replace_occurrence old new rest Hold).
  - change (String c d +:+ old +:+ rest) with (String c (d +:+ old +:+ rest)).
    change (String c d +:+ new +:+ replace old new rest)
      with (String c (d +:+ new +:+ replace old new rest)).
    cbn [find String.length].
    destruct (String.prefix old (String c (d +:+ old +:+ rest))) eqn:Hp; [done|].
    destruct (find old (d +:+ old +:+ rest)) as [i|] eqn:Hf; [|done].
    intros [= ->]. rewrite replace_other by done. by rewrite IH.
Qed.

End TextFacts.

(** ** The search for a loop in the source of [tv_loss] *)

Section SearchFacts.
Import StyleTransfer Text.

Lemma starts_with_split p s :
  starts_with p s = true <-> exists r, s = p ++ r.
Proof.
  revert s. induction p as [|a p IH]; intros s; simpl.
  - split; [by exists s|done].
  - destruct s as [|b s].
    + split; [done|]. by intros [r Hr].
    + rewrite andb_true_iff, N.eqb_eq, IH. split.
      * intros [-> [r ->]]. by exists r.
      * intros [r [= -> ->]]. split; [done|by exists r].
Qed.

Lemma skip_nonspace_split r :
  exists name, nonspace name = true /\ r = name ++ skip_nonspace r.
Proof.
  induction r as [|c r (name & Hn & Hr)]; simpl.
  - by exists [].
  - destruct (is_space c) eqn:Hc.
    + by exists [].
    + exists (c :: name). simpl. rewrite Hc, Hn. split; [done|].
      by rewrite <- Hr.
Qed.

Lemma skip_nonspace_run name post :
  nonspace name = true ->
  skip_nonspace (name ++ codes " in" ++ post) = codes " in" ++ post.
Proof.
  induction name as [|c name IH]; simpl; [done|].
  intros [Hc Hn]%andb_true_iff. apply negb_true_iff in Hc. rewrite Hc.
  by apply IH.
Qed.

Lemma match_here_shape s :
  match_here s = true
  <-> exists name post,
        nonspace name = true /\ s = codes "for " ++ name ++ codes " in" ++ post.
Proof.
  unfold match_here. rewrite andb_true_iff, !starts_with_split. split.
  - intros [[r ->] [post Hpost]].
    change (drop 4 (codes "for " ++ r)) with r in Hpost.
    destruct (skip_nonspace_split r) as (name & Hn & Hr).
    exists name, post. split; [done|]. rewrite Hpost in Hr. by rewrite Hr at 1.
  - intros (name & post & Hn & ->). split; [by eexists|].
    change (drop 4 (codes "for " ++ name ++ codes " in" ++ post))
      with (name ++ codes " in" ++ post).
    rewrite skip_nonspace_run by done. by eexists.
Qed.

(** [search_for_in] finds the lines in which "for ", a run of characters
    without white space, and " in" follow each other. *)
Lemma search_for_in_shape s :
  search_for_in s = true
  <-> exists pre name post,
        nonspace name = true
        /\ s = pre ++ codes "for " ++ name ++ codes " in" ++ post.
Proof.
  induction s as [|c s IH].
  - cbn [search_for_in]. rewrite orb_false_r, match_here_shape. split.
    + intros (name & post & Hn & E). by exists [], name, post.
    + intros (pre & name & post & Hn & E). destruct pre; done.
  - cbn [search_for_in]. rewrite orb_true_iff, match_here_shape, IH.
    split.
    + intros [(name & post & Hn & E)|(pre & name & post & Hn & E)].
      * by exists [], name, post.
      * exists (c :: pre), name, post. split; [done|]. simpl. by rewrite E.
    + intros (pre & name & post & Hn & E). destruct pre as [|c' pre].
      * left. by exists name, post.
      * right. injection E as <- E. by exists pre, name, post.
Qed.
End SearchFacts.

(** ** The PyTorch style-transfer notebook: paths and warning *)

Section TorchCells.
Import StyleTransfer Text.
Context `{Torch}.

(** X1.  A [tv_loss_test] that got its relative error and printed it
    prints its warning exactly when a line of the source of [tv_loss] holds "for ", a run of
    characters without white space (that of Unicode: a no-break space ends
    the run as a blank does) and " in" one after the other, wherever in
    the line and whatever surrounds them. *)
Theorem tv_loss_warning_iff student folder correct content_img out error
    shown :
  open_image (folder +:+ "/tubingen.jpg") 192 = inr content_img ->
  tv_loss_fn student content_img (2 # 100) = inr (Tensor out) ->
  rel_error correct out = inr error ->
  item error = inr shown ->
  In (Print loop_warning) (tv_loss_test student folder correct).1
  <-> exists line pre name post,
        In line tv_loss_source
        /\ nonspace name = true
        /\ line = pre ++ codes "for " ++ name ++ codes " in" ++ post.
Proof.
  intros Eo Et Er Es. unfold tv_loss_test. rewrite Eo. simpl. rewrite Et.
  simpl. rewrite Er. simpl. rewrite Es. simpl.
  destruct (existsb search_for_in tv_loss_source) eqn:E; simpl.
  - split; [intros _|by auto].
    apply existsb_exists in E as (line & Hin & Hs).
    apply search_for_in_shape in Hs as (pre & name & post & Hn & ->).
    by exists (pre ++ codes "for " ++ name ++ codes " in" ++ post),
              pre, name, post.
  - split; [intros [?|[]]; done|].
    intros (line & pre & name & post & Hin & Hn & ->). exfalso.
    assert (existsb search_for_in tv_loss_source = true); [|congruence].
    apply existsb_exists. eexists. split; [exact Hin|].
    apply search_for_in_shape. by exists pre, name, post.
Qed.

(** X2.  When the first occurrence of "style-transfer-checks.npz" in
    [CHECKS_PATH] is at its end, the styles are looked for in the folder
    "styles" beside the checks file; when the name does not occur in
    [CHECKS_PATH], [STYLES_FOLDER] is [CHECKS_PATH] itself. *)
Theorem styles_folder_of_checks_path :
  (forall d answers,
     find "style-transfer-checks.npz" (d +:+ "style-transfer-checks.npz")
     = Some (String.length d) ->
     np_load (d +:+ "style-transfer-checks.npz") = inr answers ->
     checks_cell (Some (d +:+ "style-transfer-checks.npz"))
     = ([Load (d +:+ "style-transfer-checks.npz")], Ok (d +:+ "styles", answers)))
  /\ (forall path answers,
        find "style-transfer-checks.npz" path = None ->
        np_load path = inr answers ->
        checks_cell (Some path) = ([Load path], Ok (path, answers))).
Proof.
  split.
  - intros d answers Hf El. unfold checks_cell. simpl. rewrite El. simpl.
    do 3 f_equal.
    exact (replace_first "style-transfer-checks.npz" "styles" d ""
             ltac:(done) Hf).
  - intros path answers Hf El. unfold checks_cell. simpl. rewrite El. simpl.
    by rewrite replace_absent.
Qed.

End TorchCells.

Lemma tv_loss_warning_iff_witness :
  In (Print StyleTransfer.loop_warning)
     (@StyleTransfer.tv_loss_test (Small.torch Small.content_loss)
        (Small.handed_in Small.content_loss) "styles" (6 # 100)%Q).1.
Proof.
  apply (@tv_loss_warning_iff (Small.torch Small.content_loss)
           (Small.handed_in Small.content_loss) "styles" (6 # 100)%Q
           1%Q 0%Q 1%Q 1%Q); [reflexivity..|].
  exists (codes "    for i in range(3):"), (codes "    "), (codes "i"),
         (codes " range(3):").
  split_and!; [|reflexivity..]. simpl. auto.
Defined.

Lemma styles_folder_of_checks_path_witness :
  @StyleTransfer.checks_cell (Small.torch Small.content_loss)
    (Some "/content/style-transfer-checks.npz")
  = ([Load "/content/style-transfer-checks.npz"],
     Ok ("/content/styles", {[ "cl_out" := (6 # 100)%Q ]})).
Proof.
  destruct (@styles_folder_of_checks_path (Small.torch Small.content_loss))
    as [Hbeside _].
  apply (Hbeside "/content/" {[ "cl_out" := (6 # 100)%Q ]}); reflexivity.
Defined.

(** ** [style_transfer] of the PyTorch notebook: what it prints *)

(** The lines and figures of the first [n] turns of a loop that reports
    every hundredth turn. *)
Abbreviation reports n :=
  (flat_map (fun t => if t mod 100 =? 0
                      then [PrintInt "Iteration {}" (Z.of_nat t); Figure]
                      else [])
            (range n)).

Lemma for_in_reports {S} (out : S -> list event) body s0 :
  (forall t s s',
     body t s = Ok s' ->
     out s' = out s ++ (if t mod 100 =? 0
                        then [PrintInt "Iteration {}" (Z.of_nat t); Figure]
                        else [])) ->
  forall n s, for_in (range n) body s0 = Ok s -> out s = out s0 ++ reports n.
Proof.
  intros Hbody.
  apply (for_in_invariant (fun n s => out s = out s0 ++ reports n)).
  - simpl. by rewrite app_nil_r.
  - intros t s s' Hs Hb. rewrite (Hbody _ _ _ Hb), Hs.
    rewrite range_succ, flat_map_app. simpl.
    by rewrite app_nil_r, app_assoc.
Qed.

Section TorchRun.
Import StyleTransfer.
Context `{Torch}.

Lemma style_transfer_runs p seed model content_img style_img :
  open_image (content_image p) (image_size p) = inr content_img ->
  open_image (style_image p) (style_size p) = inr style_img ->
  (forall x w, content_layer p < length (extract_features x w)) ->
  Forall (fun idx => idx < length (extract_features style_img (weights model)))
         (style_layers p) ->
  exists st, style_transfer p seed model = Ok st.
Proof.
  intros Ec Es Hc Hs.
  destruct (prepare_ok p seed model _ _ Ec Es (Hc _ _) Hs)
    as (ct & sts & _ & _ & Eprep).
  unfold style_transfer, iterations. rewrite Eprep. cbn [mbind result_bind].
  destruct (run_total p ct sts model
              (if init_random p then uniform_ 0 1 content_img seed else content_img)
              [Figure; Figure] Hc 200) as [st Est].
  rewrite Est. by eexists.
Qed.

Lemma iteration_out p content_target style_targets t st st' :
  iteration p content_target style_targets t st = Ok st' ->
  out st' = out st ++ (if t mod 100 =? 0
                       then [PrintInt "Iteration {}" (Z.of_nat t); Figure]
                       else []).
Proof.
  unfold iteration. cbv zeta.
  destruct (loss_of _ _ _ _ _) as [l|]; simpl; [|done].
  destruct (step _ _) as [o s].
  intros [= <-]. cbn [out].
  destruct (_ =? 0); [done|]. by rewrite app_nil_r.
Qed.

(** X5.  A run of [style_transfer] that goes to its end shows the two
    source images, reports iteration 0 and iteration 100 with the image at
    that time, and ends with a report of iteration 199: these eight outputs
    and no other. *)
Theorem style_transfer_output p seed model st :
  style_transfer p seed model = Ok st ->
  out st = [Figure; Figure;
            PrintInt "Iteration {}" 0; Figure;
            PrintInt "Iteration {}" 100; Figure;
            PrintInt "Iteration {}" 199; Figure].
Proof.
  unfold style_transfer, iterations.
  destruct (prepare p seed model) as [[[ct sts] st0]|] eqn:Eprep; [|done].
  cbn [mbind result_bind].
  destruct (for_in _ _ st0) as [st200|] eqn:Erun; [|done].
  cbn [mbind result_bind]. intros [= <-]. cbn [out].
  rewrite (for_in_reports out _ _ (iteration_out p ct sts) _ _ Erun).
  destruct (prepare_inv _ _ _ _ _ _ Eprep) as (x & es & ->).
  revert Eprep. unfold prepare.
  destruct (open_image (content_image p) (image_size p)); [done|].
  simpl. destruct (getitem _ _); [|done].
  simpl. destruct (open_image (style_image p) (style_size p)); [done|].
  simpl. destruct (collect _ _); [|done].
  simpl. intros [= _ _ _ <-]. reflexivity.
Qed.
End TorchRun.

Lemma style_transfer_output_witness :
  exists st,
    @StyleTransfer.style_transfer (Small.torch Small.content_loss) Small.params
      0%N Small.model = Ok st
    /\ length (StyleTransfer.out st) = 8.
Proof.
  destruct (@style_transfer_runs (Small.torch Small.content_loss) Small.params
              0%N Small.model 1%Q 1%Q) as [st Hst].
  - reflexivity.
  - reflexivity.
  - intros x w. simpl. lia.
  - repeat constructor; simpl; lia.
  - exists st. split; [exact Hst|].
    by rewrite (@style_transfer_output (Small.torch Small.content_loss)
                  Small.params 0%N Small.model st Hst).
Defined.

(** ** [style_transfer] of the TensorFlow notebook *)

Section TensorFlowRun.
Import NetVis StyleTransferTF.
Context `{TF}.

Lemma clip_by_scalar_within X lo hi :
  (lo <= hi)%Q -> within lo hi (clip_by_scalar X lo hi).
Proof.
  intros Hle. unfold within, clip_by_scalar.
  apply Forall_forall. intros row Hrow.
  apply list_elem_of_In, List.in_map_iff in Hrow as (row' & <- & _).
  apply Forall_forall. intros v Hv.
  apply list_elem_of_In, List.in_map_iff in Hv as (v' & <- & _).
  apply Forall_forall. intros x Hx.
  apply list_elem_of_In, List.in_map_iff in Hx as (x' & <- & _).
  split.
  - apply Q.min_glb; [apply Q.le_max_r|exact Hle].
  - apply Q.le_min_r.
Qed.

Lemma tf_prepare_inv p seed model ct sts lr st0 :
  prepare p seed model = Ok (ct, sts, lr, st0) ->
  lr = initial_lr
  /\ out st0 = [Figure; Figure;
                Print (if StyleTransfer.init_random p
                       then "Intializing randomly."
                       else "Initializing with content image.")].
Proof.
  unfold prepare.
  destruct (open_image (StyleTransfer.content_image p) _) as [?|ci]; [done|].
  simpl. destruct (getitem _ (StyleTransfer.content_layer p)) as [ct'|]; [|done].
  simpl. destruct (open_image (StyleTransfer.style_image p) _) as [?|si]; [done|].
  simpl. destruct (collect _ (StyleTransfer.style_layers p)) as [sts'|]; [|done].
  simpl. destruct (StyleTransfer.init_random p); intros [= _ _ <- <-]; done.
Qed.

Lemma tf_prepare_ok p seed model content_img style_img :
  open_image (StyleTransfer.content_image p) (StyleTransfer.image_size p)
  = inr content_img ->
  open_image (StyleTransfer.style_image p) (StyleTransfer.style_size p)
  = inr style_img ->
  StyleTransfer.content_layer p < length (extract_features content_img model) ->
  Forall (fun idx => idx < length (extract_features style_img model))
         (StyleTransfer.style_layers p) ->
  exists r, prepare p seed model = Ok r.
Proof.
  intros Ec Es Hc Hs.
  destruct (lookup_lt_is_Some_2 _ _ Hc) as [ct Ect].
  destruct (collect_getitem _ gram_matrix _ Hs) as (sts & Ests & _).
  unfold prepare. rewrite Ec. cbn [call mbind result_bind].
  replace (getitem (extract_features content_img model)
                   (StyleTransfer.content_layer p))
    with (Ok ct) by (unfold getitem; by rewrite Ect).
  rewrite Es. cbn [call mbind result_bind]. rewrite Ests. simpl.
  destruct (StyleTransfer.init_random p); by eexists.
Qed.

Section Loop.
Variables (p : StyleTransfer.params) (model : weights).
Variables (content_target : tensor) (style_targets : list tensor) (rate : Q).

Abbreviation tf_body := (iteration p model content_target style_targets rate).
Abbreviation tf_loss := (loss_of p model content_target style_targets).

Lemma tf_iteration_inv t st st' :
  tf_body t st = Ok st' ->
  let upd := adam_update rate (slots st) (gradient tf_loss (img_var st))
                         (img_var st) in
  img_var st' = clip_by_scalar upd.1 (-3 # 2) (3 # 2)
  /\ slots st' = upd.2
  /\ out st' = out st ++ (if t mod 100 =? 0
                          then [PrintInt "Iteration {}" (Z.of_nat t); Figure]
                          else []).
Proof.
  unfold iteration. cbv zeta.
  destruct (loss_of _ _ _ _ _) as [l|]; simpl; [|done].
  destruct (adam_update _ _ _ _) as [x a].
  intros [= <-]. cbn [img_var slots out fst snd]. split_and!; [done..|].
  destruct (_ =? 0); [done|]. by rewrite app_nil_r.
Qed.

Lemma tf_run_total st0 :
  (forall x, StyleTransfer.content_layer p < length (extract_features x model)) ->
  forall n, exists st, for_in (range n) tf_body st0 = Ok st.
Proof.
  intros Hlen n.
  destruct (for_in_total (fun _ _ => True) tf_body st0) with (n := n)
    as (st & E & _); [done| |by exists st].
  intros t st _. unfold iteration, loss_of. cbv zeta.
  destruct (lookup_lt_is_Some_2 _ _ (Hlen (img_var st))) as [f Ef].
  unfold getitem. rewrite Ef. simpl.
  destruct (adam_update _ _ _ _) as [x a]. by eexists.
Qed.
End Loop.

Lemma tf_style_transfer_runs p seed model content_img style_img :
  open_image (StyleTransfer.content_image p) (StyleTransfer.image_size p)
  = inr content_img ->
  open_image (StyleTransfer.style_image p) (StyleTransfer.style_size p)
  = inr style_img ->
  (forall x, StyleTransfer.content_layer p < length (extract_features x model)) ->
  Forall (fun idx => idx < length (extract_features style_img model))
         (StyleTransfer.style_layers p) ->
  exists st, style_transfer p seed model = Ok st.
Proof.
  intros Ec Es Hc Hs.
  destruct (tf_prepare_ok p seed model _ _ Ec Es (Hc _) Hs)
    as ([[[ct sts] lr] st0] & Eprep).
  unfold style_transfer, iterations. rewrite Eprep. cbn [mbind result_bind].
  destruct (tf_run_total p model ct sts lr st0 Hc max_iter) as [st Est].
  rewrite Est. by eexists.
Qed.

(** X6.  The learning rate of the TensorFlow [style_transfer] is read off
    its schedule once, at step 0, before the optimizer is built: every
    iteration, also those after iteration 180, takes its Adam step with the
    rate 3.0 and then clips the image to [-1.5, 1.5]. *)
Theorem tf_rate_never_decays p seed model ct sts lr st0 n st st' :
  prepare p seed model = Ok (ct, sts, lr, st0) ->
  iterations p seed model n = Ok st ->
  iterations p seed model (S n) = Ok st' ->
  let grad := gradient (loss_of p model ct sts) (img_var st) in
  let upd := adam_update 3 (slots st) grad (img_var st) in
  lr = 3%Q
  /\ img_var st' = clip_by_scalar upd.1 (-3 # 2) (3 # 2)
  /\ slots st' = upd.2.
Proof.
  intros Eprep En ESn. cbv zeta.
  destruct (tf_prepare_inv _ _ _ _ _ _ _ Eprep) as [-> _].
  split; [done|].
  unfold iterations in En, ESn. rewrite Eprep in En, ESn.
  cbn [mbind result_bind] in En, ESn.
  rewrite for_in_succ, En in ESn. cbn [mbind result_bind] in ESn.
  destruct (tf_iteration_inv _ _ _ _ _ _ _ _ ESn) as (Hx & Ha & _).
  done.
Qed.

(** X7.  After every iteration of the TensorFlow [style_transfer], the
    last ten included, and in the image it ends with, every channel of every
    pixel lies in [-1.5, 1.5]. *)
Theorem tf_image_within_bounds p seed model :
  (forall n st,
     iterations p seed model (S n) = Ok st ->
     within (-3 # 2) (3 # 2) (img_var st))
  /\ (forall st,
        style_transfer p seed model = Ok st ->
        within (-3 # 2) (3 # 2) (img_var st)).
Proof.
  assert (forall n st,
            iterations p seed model (S n) = Ok st ->
            within (-3 # 2) (3 # 2) (img_var st)) as Hloop.
  { intros n st. unfold iterations.
    destruct (prepare p seed model) as [[[[ct sts] lr] st0]|]; [|done].
    cbn [mbind result_bind]. rewrite for_in_succ.
    destruct (for_in (range n) _ st0) as [stn|]; [|done].
    cbn [mbind result_bind]. intros Hb.
    destruct (tf_iteration_inv _ _ _ _ _ _ _ _ Hb) as (-> & _).
    by apply clip_by_scalar_within. }
  split; [exact Hloop|].
  intros st. unfold style_transfer, max_iter.
  destruct (iterations p seed model 200) as [st200|] eqn:E; [|done].
  cbn [mbind result_bind]. intros [= <-]. cbn [img_var].
  exact (Hloop 199 st200 E).
Qed.

End TensorFlowRun.

Lemma tf_rate_never_decays_witness :
  exists st st',
    @StyleTransferTF.iterations SmallTF.style Small.params 0%N 0 0 = Ok st
    /\ @StyleTransferTF.iterations SmallTF.style Small.params 0%N 0 1 = Ok st'
    /\ @StyleTransferTF.slots SmallTF.style st'
       = S (@StyleTransferTF.slots SmallTF.style st).
Proof.
  destruct (@StyleTransferTF.prepare SmallTF.style Small.params 0%N 0)
    as [[[[ct sts] lr] st0]|] eqn:Ep; [|vm_compute in Ep; discriminate].
  destruct (@StyleTransferTF.iterations SmallTF.style Small.params 0%N 0 0)
    as [st|] eqn:E0; [|vm_compute in E0; discriminate].
  destruct (@StyleTransferTF.iterations SmallTF.style Small.params 0%N 0 1)
    as [st'|] eqn:E1; [|vm_compute in E1; discriminate].
  exists st, st'. split_and!; [reflexivity..|].
  destruct (@tf_rate_never_decays SmallTF.style Small.params 0%N 0
              ct sts lr st0 0 st st' Ep E0 E1) as (_ & _ & Ha).
  rewrite Ha. reflexivity.
Defined.

Lemma tf_image_within_bounds_witness :
  exists st,
    @StyleTransferTF.style_transfer SmallTF.style Small.params 0%N 0 = Ok st
    /\ StyleTransferTF.within (-3 # 2) (3 # 2)
         (@StyleTransferTF.img_var SmallTF.style st).
Proof.
  destruct (@tf_style_transfer_runs SmallTF.style Small.params 0%N 0
              [[[1; 0; 2]; [0; 1; 0]]]%Q [[[1; 0; 2]; [0; 1; 0]]]%Q)
    as [st Hst].
  - reflexivity.
  - reflexivity.
  - intros x. simpl. lia.
  - repeat constructor; simpl; lia.
  - exists st. split; [exact Hst|].
    destruct (@tf_image_within_bounds SmallTF.style Small.params 0%N 0)
      as [_ Hend].
    exact (Hend st Hst).
Defined.


(** ** The paths of the TensorFlow style-transfer notebook *)

Section TensorFlowPaths.
Import Text StyleTransferTF.

(** X9.  The cell that derives the paths of the TensorFlow style-transfer
    notebook stops on its assertion while [SAVE_PATH] is None and with
    ValueError when the index file of the checkpoint is missing.  For a
    checkpoint at "cv/datasets/squeezenet.ckpt" below a folder, the checks
    file and the styles folder are looked for in that folder; for a path in
    which neither file name occurs, both are the path of the checkpoint
    itself. *)
Theorem tf_paths_of_save_path (path_exists : string -> bool) :
  paths_cell path_exists None
  = Raise (AssertionError "[!] Choose path to squeezenet.ckpt")
  /\ (forall path,
        path_exists (path +:+ ".index") = false ->
        paths_cell path_exists (Some path)
        = Raise (ValueError "You need to download SqueezeNet!"))
  /\ (forall d,
        path_exists ((d +:+ "cv/datasets/squeezenet.ckpt") +:+ ".index") = true ->
        find "cv/datasets/squeezenet.ckpt" (d +:+ "cv/datasets/squeezenet.ckpt")
        = Some (String.length d) ->
        find "style-transfer-checks-tf.npz" (d +:+ "style-transfer-checks-tf.npz")
        = Some (String.length d) ->
        paths_cell path_exists (Some (d +:+ "cv/datasets/squeezenet.ckpt"))
        = Ok (d +:+ "style-transfer-checks-tf.npz", d +:+ "styles"))
  /\ (forall path,
        path_exists (path +:+ ".index") = true ->
        find "cv/datasets/squeezenet.ckpt" path = None ->
        find "style-transfer-checks-tf.npz" path = None ->
        paths_cell path_exists (Some path) = Ok (path, path)).
Proof.
  split_and!.
  - done.
  - intros path He. unfold paths_cell. simpl. by rewrite He.
  - intros d He Hckpt Hnpz. unfold paths_cell. simpl.
    rewrite He. simpl.
    pose proof (replace_first "cv/datasets/squeezenet.ckpt"
                  "style-transfer-checks-tf.npz" d "" ltac:(done) Hckpt) as E1.
    pose proof (replace_first "style-transfer-checks-tf.npz" "styles" d ""
                  ltac:(done) Hnpz) as E2.
    change (replace "cv/datasets/squeezenet.ckpt" "style-transfer-checks-tf.npz"
              (d +:+ "cv/datasets/squeezenet.ckpt")
            = d +:+ "style-transfer-checks-tf.npz") in E1.
    change (replace "style-transfer-checks-tf.npz" "styles"
              (d +:+ "style-transfer-checks-tf.npz")
            = d +:+ "styles") in E2.
    by rewrite E1, E2.
  - intros path He Hckpt Hnpz. unfold paths_cell. simpl. rewrite He. simpl.
    by rewrite (replace_absent _ _ _ Hckpt), (replace_absent _ _ _ Hnpz).
Qed.
End TensorFlowPaths.

Lemma tf_paths_of_save_path_witness :
  StyleTransferTF.paths_cell (fun _ => true)
    (Some "/content/drive/My Drive/cv/datasets/squeezenet.ckpt")
  = Ok ("/content/drive/My Drive/style-transfer-checks-tf.npz",
        "/content/drive/My Drive/styles").
Proof.
  destruct (tf_paths_of_save_path (fun _ => true)) as (_ & _ & Hbelow & _).
  apply (Hbelow "/content/drive/My Drive/"); reflexivity.
Defined.

(** ** The keyword arguments of [create_class_visualization] *)

Section LoopRuns.
Context {S : Type}.



(** A loop whose body completes, in the turns it has, from every state
    that satisfies the invariant, completes. *)
Lemma for_in_total_below (I : nat -> S -> Prop) body s0 n :
  I 0 s0 ->
  (forall t s, t < n -> I t s ->
     exists s', body t s = Ok s' /\ I (Datatypes.S t) s') ->
  exists s, for_in (range n) body s0 = Ok s /\ I n s.
Proof.
  intros H0 Hstep.
  assert (forall k, k <= n -> exists s, for_in (range k) body s0 = Ok s /\ I k s)
    as Hall; [|by apply Hall].
  induction k as [|k IH]; intros Hk.
  - by exists s0.
  - destruct IH as (s & E & Hs); [lia|].
    destruct (Hstep k s ltac:(lia) Hs) as (s' & Eb & Hs').
    exists s'. rewrite for_in_succ, E. simpl. done.
Qed.
End LoopRuns.

Section VisualizationArguments.
Import NetVis.
Context `{TF}.
Variables (class_names : gmap nat string) (target_y : nat) (kw : kwargs).

Abbreviation l2 := (pop (l2_reg kw) (1 # 1000)%Q).
Abbreviation rate := (pop (learning_rate kw) 25%Q).
Abbreviation n_iter := (pop (num_iterations kw) 100%Z).
Abbreviation blur := (pop (blur_every kw) 10%Z).
Abbreviation jit := (pop (max_jitter kw) 16%Z).
Abbreviation show := (pop (show_every kw) 25%Z).
Abbreviation body := (iteration class_names target_y kw).

(** The step the student wrote returns. *)
Hypothesis update_returns : forall X m y l r,
  exists X' m', class_visualization_update_step X m y l r = inr (X', m').



End VisualizationArguments.


(** ** Showing images *)

Section ShowImages.
Import Plots.

Lemma ceil_sqrt_covers n : n <= ceil_sqrt n * ceil_sqrt n.
Proof.
  unfold ceil_sqrt. destruct (Nat.sqrt_spec n ltac:(lia)) as [_ Hhi].
  destruct (Nat.eqb_spec (Nat.sqrt n * Nat.sqrt n) n); simpl in *; lia.
Qed.

Lemma ceil_sqrt_square n :
  ceil_sqrt n * ceil_sqrt n = n <-> exists k, n = k * k.
Proof.
  unfold ceil_sqrt. split.
  - intros E. eexists. by rewrite E.
  - intros [k ->]. rewrite Nat.sqrt_square. by rewrite Nat.eqb_refl.
Qed.

(** X11.  [show_images] on a batch of at least one image never asks its
    grid for a cell the grid does not have; it draws every image of the
    batch when the number of pixels of an image is a square, and stops with
    ValueError, at the first image, when it is not. *)
Theorem show_images_square_images b :
  1 <= count b ->
  1 <= size b ->
  ((exists k, size b = k * k) -> show_images b = Ok (count b))
  /\ ((forall k, size b <> k * k) ->
      show_images b = Raise (LibraryError "ValueError")).
Proof.
  intros Hc _. unfold show_images.
  destruct (Nat.eqb_spec (count b) 0) as [?|_]; [lia|]. cbv zeta.
  pose proof (ceil_sqrt_covers (count b)) as Hgrid.
  split.
  - intros Hk. apply ceil_sqrt_square in Hk.
    destruct (for_in_total_below (fun n drawn => drawn = n)
                (fun i drawn =>
                   _ ← show_one (ceil_sqrt (count b)) (ceil_sqrt (size b))
                                (size b) i;
                   Ok (S drawn)) 0 (count b)) as (s & E & ->); [done| |done].
    intros t s Ht ->. exists (S t). split; [|done].
    unfold show_one.
    destruct (Nat.ltb_spec t (ceil_sqrt (count b) * ceil_sqrt (count b)));
      [|lia].
    cbn [mbind result_bind]. by rewrite Hk, Nat.eqb_refl.
  - intros Hk.
    destruct (count b) as [|c] eqn:Ec; [lia|].
    unfold range. cbn [seq for_in]. unfold show_one.
    destruct (Nat.ltb_spec 0 (ceil_sqrt (S c) * ceil_sqrt (S c))); [|lia].
    cbn [mbind result_bind].
    destruct (Nat.eqb_spec (ceil_sqrt (size b) * ceil_sqrt (size b)) (size b))
      as [E|_]; [|done].
    by destruct (Hk (ceil_sqrt (size b))).
Qed.

Lemma flat_map_seq_shift {A} (f : nat -> list A) n : forall a,
  flat_map f (seq (S a) n) = flat_map (fun i => f (S i)) (seq a n).
Proof.
  induction n as [|n IH]; intros a; [done|]. cbn [seq flat_map]. by rewrite IH.
Qed.

(** What the snapshot cell prints and shows for its first [n] batches,
    counting from [numIter]. *)
Abbreviation shown_from numIter n :=
  (flat_map (fun i => [PrintInt "Iter: {}" (numIter + 20 * Z.of_nat i)%Z;
                       Figure; Print ""])
            (range n)).

Lemma shown_from_succ numIter n :
  shown_from numIter (S n)
  = [PrintInt "Iter: {}" numIter; Figure; Print ""]
    ++ shown_from (numIter + 20)%Z n.
Proof.
  unfold range. cbn [seq flat_map]. rewrite flat_map_seq_shift.
  rewrite Z.mul_0_r, Z.add_0_r. f_equal.
  apply flat_map_ext. intros i. do 2 f_equal. lia.
Qed.

Lemma snapshots_all images : forall numIter,
  Forall (fun b => exists n, show_images b = Ok n) images ->
  snapshots numIter images
  = (shown_from numIter (length images),
     Ok (numIter + 20 * Z.of_nat (length images))%Z).
Proof.
  induction images as [|b bs IH]; intros numIter Hall.
  - simpl. unfold mret, cell_ret.
    by replace (numIter + 20 * Z.of_nat 0)%Z with numIter by lia.
  - apply Forall_cons in Hall as [[n Hb] Hbs].
    cbn [snapshots length]. rewrite shown_from_succ, Hb, (IH _ Hbs).
    unfold emit, run. cbn [mbind cell_bind app].
    by replace (numIter + 20 + 20 * Z.of_nat (length bs))%Z
      with (numIter + 20 * Z.of_nat (S (length bs)))%Z by lia.
Qed.

Lemma snapshots_stop good bad rest e : forall numIter,
  Forall (fun b => exists n, show_images b = Ok n) good ->
  show_images bad = Raise e ->
  snapshots numIter (good ++ bad :: rest)
  = (shown_from numIter (length good)
     ++ [PrintInt "Iter: {}" (numIter + 20 * Z.of_nat (length good))%Z],
     Raise e).
Proof.
  induction good as [|b bs IH]; intros numIter Hall Hbad.
  - cbn [snapshots app length]. rewrite Hbad.
    unfold emit, run. cbn [mbind cell_bind app]. simpl.
    by replace (numIter + 20 * Z.of_nat 0)%Z with numIter by lia.
  - apply Forall_cons in Hall as [[n Hb] Hbs].
    cbn [snapshots length app]. rewrite shown_from_succ, Hb, (IH _ Hbs Hbad).
    unfold emit, run. cbn [mbind cell_bind app].
    by replace (numIter + 20 + 20 * Z.of_nat (length bs))%Z
      with (numIter + 20 * Z.of_nat (S (length bs)))%Z by lia.
Qed.

(** X12.  The cell that shows the snapshots of a training run labels them
    0, 20, 40 and so on, whatever the interval at which they were taken,
    showing one figure and printing one empty line after each; it leaves
    [numIter] at twenty times their number.  When a batch cannot be shown,
    the cell stops after it printed the label of that batch. *)
Theorem snapshots_labels :
  (forall images,
     Forall (fun b => exists n, show_images b = Ok n) images ->
     snapshots_cell images
     = (shown_from 0 (length images), Ok (20 * Z.of_nat (length images))%Z))
  /\ (forall good bad rest e,
        Forall (fun b => exists n, show_images b = Ok n) good ->
        show_images bad = Raise e ->
        snapshots_cell (good ++ bad :: rest)
        = (shown_from 0 (length good)
           ++ [PrintInt "Iter: {}" (20 * Z.of_nat (length good))%Z],
           Raise e)).
Proof.
  split.
  - intros images Hall. unfold snapshots_cell. by rewrite snapshots_all.
  - intros good bad rest e Hall Hbad. unfold snapshots_cell.
    by rewrite (snapshots_stop _ _ _ _ _ Hall Hbad).
Qed.
End ShowImages.

Lemma show_images_square_images_witness :
  Plots.show_images (Plots.Batch 16 784 []) = Ok 16.
Proof.
  apply (show_images_square_images (Plots.Batch 16 784 [])); simpl; [lia..|].
  by exists 28.
Defined.

Lemma snapshots_labels_witness :
  Plots.snapshots_cell [Plots.Batch 16 784 []; Plots.Batch 16 784 []]
  = ([PrintInt "Iter: {}" 0; Figure; Print "";
      PrintInt "Iter: {}" 20; Figure; Print ""], Ok 40%Z).
Proof.
  destruct snapshots_labels as [Hall _].
  apply (Hall [Plots.Batch 16 784 []; Plots.Batch 16 784 []]).
  repeat constructor; by exists 16.
Defined.

(** ** [show_saliency_maps] *)

Section SaliencyMaps.
Import Plots.
Context `{NetVis.TF}.
Variable compute_saliency_maps :
  list NetVis.image -> list nat -> NetVis.model NetVis.weights ->
  list (list (list Q)).
Variable class_names : gmap nat string.



End SaliencyMaps.


(** ** The checks of the TensorFlow style-transfer notebook *)

Section TensorFlowChecks.
Import NetVis StyleTransferTF.
Context `{TF}.

(** X14.  With a feature extractor that gives [L] feature maps, a check
    of the TensorFlow style-transfer notebook gets as far as the call of
    the student's function when there are more than 2 ([content_loss_test]),
    4 ([gram_matrix_test]) or 6 ([style_loss_test]) of them, and always
    for [tv_loss_test]; it then ends as [graded] says: it stops with the
    exception of the function, of [rel_error] or of the formatting, and
    otherwise prints the relative error, which it compares with nothing, and goes to its end.
    With fewer feature maps the check stops before it prints, with
    IndexError where it did not call a function of the student before. *)
Theorem tf_checks_graded student content_img_test style_img_test model L :
  (forall x, length (extract_features x model) = L) ->
  (forall correct,
     if 2 <? L
     then exists a b,
            extract_features content_img_test model !! 2 = Some a
            /\ extract_features (zeros content_img_test) model !! 2 = Some b
            /\ graded "Maximum error is {:.3f}" correct
                      (content_loss_fn student (6 # 100) a b) []
                      (content_loss_test student content_img_test model correct)
     else content_loss_test student content_img_test model correct
          = ([], Raise (LibraryError "IndexError")))
  /\ (forall correct,
        if 4 <? L
        then exists f,
               extract_features style_img_test model !! 4 = Some f
               /\ graded "Maximum error is {:.3f}" correct
                         (gram_matrix_fn student f) []
                         (gram_matrix_test student style_img_test model correct)
        else gram_matrix_test student style_img_test model correct
             = ([], Raise (LibraryError "IndexError")))
  /\ (forall correct,
        let test :=
          style_loss_test student content_img_test style_img_test model
                          correct in
        match collect (fun idx =>
                         f ← getitem (extract_features style_img_test model) idx;
                         call (gram_matrix_fn student f))
                      [0; 3; 5; 6] with
        | Ok style_targets =>
            6 < L
            /\ graded "Error is {:.3f}" correct
                      (style_loss_fn student
                         (extract_features content_img_test model)
                         [0; 3; 5; 6] style_targets [300000; 1000; 15; 3]%Q)
                      [] test
        | Raise e =>
            test = ([], Raise e)
            /\ (e = LibraryError "IndexError" -> 6 < L ->
                exists f, gram_matrix_fn student f = inl "IndexError")
        end)
  /\ (forall correct,
        graded "Error is {:.4f}" correct
               (tv_loss_fn student content_img_test (2 # 100))
               (if existsb StyleTransfer.search_for_in tv_loss_source
                then [Print StyleTransfer.loop_warning] else [])
               (tv_loss_test student content_img_test correct)).
Proof.
  intros HL. split_and!.
  - intros correct. unfold content_loss_test, getitem.
    destruct (Nat.ltb_spec 2 L) as [Hlt|Hge].
    + destruct (lookup_lt_is_Some_2 (extract_features content_img_test model) 2)
        as [a Ea]; [by rewrite HL|].
      destruct (lookup_lt_is_Some_2
                  (extract_features (zeros content_img_test) model) 2)
        as [b Eb]; [by rewrite HL|].
      exists a, b. rewrite Ea, Eb. split_and!; [done..|].
      unfold graded. simpl.
      destruct (content_loss_fn student (6 # 100) a b) as [name|y];
        simpl; [done|].
      destruct (rel_error correct y) as [name|error]; simpl; [done|].
      by destruct (item error).
    + by rewrite (lookup_ge_None_2 (extract_features content_img_test model) 2)
        by by rewrite HL.
  - intros correct. unfold gram_matrix_test, getitem.
    destruct (Nat.ltb_spec 4 L) as [Hlt|Hge].
    + destruct (lookup_lt_is_Some_2 (extract_features style_img_test model) 4)
        as [f Ef]; [by rewrite HL|].
      exists f. rewrite Ef. split; [done|]. unfold graded. simpl.
      destruct (gram_matrix_fn student f) as [name|y]; simpl; [done|].
      destruct (rel_error correct y) as [name|error]; simpl; [done|].
      by destruct (item error).
    + by rewrite (lookup_ge_None_2 (extract_features style_img_test model) 4)
        by by rewrite HL.
  - intros correct. cbv zeta. unfold style_loss_test. cbv zeta.
    set (feats := extract_features style_img_test model).
    assert (length feats = L) as Hfeats by apply HL.
    destruct (collect _ [0; 3; 5; 6]) as [style_targets|e] eqn:Ec.
    + split.
      * revert Ec. cbn [collect]. unfold getitem.
        destruct (feats !! 0); cbn [mbind result_bind]; [|done].
        destruct (call _); cbn [mbind result_bind]; [|done].
        destruct (feats !! 3); cbn [mbind result_bind]; [|done].
        destruct (call _); cbn [mbind result_bind]; [|done].
        destruct (feats !! 5); cbn [mbind result_bind]; [|done].
        destruct (call _); cbn [mbind result_bind]; [|done].
        destruct (feats !! 6) eqn:E6; cbn [mbind result_bind]; [|done].
        intros _. apply lookup_lt_Some in E6. lia.
      * unfold graded. cbn [run mbind cell_bind app].
        destruct (style_loss_fn student _ _ style_targets _) as [name|y];
          simpl; [done|].
        destruct (rel_error correct y) as [name|error]; simpl; [done|].
        by destruct (item error).
    + split; [done|]. intros -> HL6. revert Ec. cbn [collect]. unfold getitem.
      assert (forall i, i < 7 -> is_Some (feats !! i)) as Hthere.
      { intros i Hi. apply lookup_lt_is_Some_2. lia. }
      destruct (Hthere 0 ltac:(lia)) as [f0 ->].
      destruct (Hthere 3 ltac:(lia)) as [f3 ->].
      destruct (Hthere 5 ltac:(lia)) as [f5 ->].
      destruct (Hthere 6 ltac:(lia)) as [f6 ->].
      cbn [mbind result_bind].
      destruct (gram_matrix_fn student f0) as [n0|] eqn:E0;
        cbn [call mbind result_bind]; [intros [= ->]; by exists f0|].
      destruct (gram_matrix_fn student f3) as [n3|] eqn:E3;
        cbn [call mbind result_bind]; [intros [= ->]; by exists f3|].
      destruct (gram_matrix_fn student f5) as [n5|] eqn:E5;
        cbn [call mbind result_bind]; [intros [= ->]; by exists f5|].
      destruct (gram_matrix_fn student f6) as [n6|] eqn:E6;
        cbn [call mbind result_bind]; [intros [= ->]; by exists f6|].
      done.
  - intros correct. unfold tv_loss_test, graded. cbv zeta.
    destruct (tv_loss_fn student content_img_test (2 # 100)) as [name|y];
      simpl; [done|].
    destruct (rel_error correct y) as [name|error]; simpl; [done|].
    destruct (item error) as [name|shown]; simpl; [done|].
    by destruct (existsb _ _).
Qed.

(** X15.  [check_scipy] accepts every version whose first piece is 1 or
    more without reading the second piece; below that it reads the second
    piece, accepts it from 16 on and stops on its assertion under 16. *)
Theorem check_scipy_accepts major others :
  ((1 <= major)%Z -> check_scipy (Some major) others = Ok tt)
  /\ ((major < 1)%Z ->
      forall minor others',
        others = Some minor :: others' ->
        ((16 <= minor)%Z -> check_scipy (Some major) others = Ok tt)
        /\ ((minor < 16)%Z ->
            check_scipy (Some major) others
            = Raise (AssertionError
                       "You must install SciPy >= 0.16.0 to complete this notebook."))).
Proof.
  unfold check_scipy, int_at. cbn [lookup list_lookup mbind result_bind].
  split.
  - intros Hm. by destruct (Z.ltb_spec major 1); [lia|].
  - intros Hm minor others' ->. destruct (Z.ltb_spec major 1); [|lia].
    cbn [lookup list_lookup mbind result_bind]. unfold assert.
    split; intros Hminor; destruct (Z.leb_spec 16 minor); (done || lia).
Qed.
End TensorFlowChecks.

Lemma tf_checks_graded_witness :
  @StyleTransferTF.content_loss_test SmallTF.style SmallTF.handed_in
    [[[1; 0; 2]]]%Q 0 (6 # 100)%Q
  = ([PrintNum "Maximum error is {:.3f}" (4 # 5)%Q], Ok tt)
  /\ @StyleTransferTF.gram_matrix_test SmallTF.style SmallTF.handed_in
       [[[1; 0; 2]]]%Q 0 (6 # 100)%Q
     = ([], Raise (LibraryError "TypeError")).
Proof.
  destruct (@tf_checks_graded SmallTF.style SmallTF.handed_in
              [[[1; 0; 2]]]%Q [[[1; 0; 2]]]%Q 0 8) as (Hcontent & Hgram & _).
  - intros x. reflexivity.
  - split.
    + destruct (Hcontent (6 # 100)%Q) as (a & b & Ea & Eb & E).
      injection Ea as <-. injection Eb as <-. exact E.
    + destruct (Hgram (6 # 100)%Q) as (f & Ef & E).
      injection Ef as <-. exact E.
Defined.

Lemma check_scipy_accepts_witness :
  StyleTransferTF.check_scipy (Some 1%Z) [None; Some 0%Z] = Ok tt
  /\ StyleTransferTF.check_scipy (Some 0%Z) [Some 15%Z; Some 1%Z]
     = Raise (AssertionError
                "You must install SciPy >= 0.16.0 to complete this notebook.").
Proof.
  split.
  - apply (check_scipy_accepts 1 [None; Some 0%Z]). lia.
  - destruct (check_scipy_accepts 0 [Some 15%Z; Some 1%Z]) as [_ Hold].
    destruct (Hold ltac:(lia) 15%Z [Some 1%Z] eq_refl) as [_ Hstop].
    apply Hstop. lia.
Defined.
